(** * Analytics dashboard (src/app.py): a shallow embedding and its properties

    The dashboard is one Streamlit script.  Every user interaction re-runs it
    from top to bottom against the session state; the script reads widget
    values, calls the loaders, mutates [st.session_state] and emits elements
    on the page.  The embedding follows that shape:

    - Python values decoded from JSON are [pyval];
    - a pandas [DataFrame] is a row-major table with a label and a dtype per
      column;
    - the script is written in a small monad [script] that threads the
      session state and the rendered page, and that can end with [st.stop()]
      or with an uncaught exception;
    - what the script obtains from the outside (the CSV parser, the
      warehouse, the HTTP endpoint, plotly, the table display and the
      workbook writer) is the interface [Env].

    Static decoration ([st.header], [st.subheader], [st.divider],
    [st.write] of a constant, [st.code], spinners, columns and expanders) is
    not recorded on the page; widgets are inputs of a run ([widgets]).  The
    [st.cache_data] decorators memoise a loader per argument; a loader is a
    function of its argument and of [Env] here, so memoisation does not show. *)

From Stdlib Require Import ZArith.
From stdpp Require Import base tactics option list strings pretty.

Open Scope string_scope.

#[local] Set Warnings "-register-all".

(** ** Python values *)

(** What [response.json()] returns, and what a cell of an [object] column
    holds.  A float is kept as its IEEE-754 binary64 bit pattern, NaN and
    the infinities included.  A dict is an association list in insertion
    order, its keys pairwise distinct. *)
Inductive pyval : Type :=
  | PNone
  | PBool (b : bool)
  | PInt (n : Z)
  | PFloat (bits : Z)
  | PStr (s : string)
  | PList (l : list pyval)
  | PDict (d : list (string * pyval)).

Abbreviation dict := (list (string * pyval)).

(** [key in data] and [data[key]] *)
Fixpoint dict_get (d : dict) (key : string) : option pyval :=
  match d with
  | [] => None
  | (k, v) :: d' => if decide (k = key) then Some v else dict_get d' key
  end.

(** The fields of a binary64 bit pattern. *)
Definition float_negative (bits : Z) : bool := Z.testbit bits 63.
Definition float_exponent (bits : Z) : Z := ((bits / 2 ^ 52) mod 2 ^ 11)%Z.
Definition float_fraction (bits : Z) : Z := (bits mod 2 ^ 52)%Z.

Definition is_nan (bits : Z) : bool :=
  (float_exponent bits =? 2047)%Z && negb (float_fraction bits =? 0)%Z.

Definition is_inf (bits : Z) : bool :=
  (float_exponent bits =? 2047)%Z && (float_fraction bits =? 0)%Z.

(** [float('nan')], which pandas also puts where a value is missing. *)
Definition NaN : pyval := PFloat 9221120237041090560.

(** [pd.isnull]: [None] and NaN are missing. *)
Definition isnull (v : pyval) : bool :=
  match v with
  | PNone => true
  | PFloat bits => is_nan bits
  | _ => false
  end.

(** The odd part of a positive number and the power of two it was divided
    by. *)
Fixpoint odd_part (p : positive) : positive * Z :=
  match p with
  | xO p' => let '(q, k) := odd_part p' in (q, (k + 1)%Z)
  | _ => (p, 0%Z)
  end.

(** [m * 2 ^ e] in lowest terms: an odd [m], or [(0, 0)]. *)
Definition dyadic (m e : Z) : Z * Z :=
  match m with
  | Z0 => (0%Z, 0%Z)
  | Zpos p => let '(q, k) := odd_part p in (Zpos q, (e + k)%Z)
  | Zneg p => let '(q, k) := odd_part p in (Zneg q, (e + k)%Z)
  end.

(** The value of a finite binary64 as a mantissa and a power of two. *)
Definition float_value (bits : Z) : Z * Z :=
  let m := (if float_exponent bits =? 0 then float_fraction bits
            else 2 ^ 52 + float_fraction bits)%Z in
  let e := ((if float_exponent bits =? 0 then 1 else float_exponent bits)
            - 1075)%Z in
  ((if float_negative bits then (- m)%Z else m), e).

(** What pandas' hash tables compare: two cells are the same value exactly
    when their keys are equal.  Numbers compare by value across [bool],
    [int] and [float] ([True == 1 == 1.0]); NaN is the same as NaN and
    differs from [None].  Lists and dicts cannot be hashed and never get
    this far; they are their own key. *)
Inductive key : Type :=
  | KNone
  | KNaN
  | KInf (negative : bool)
  | KNum (m e : Z)
  | KStr (s : string)
  | KObj (v : pyval).

Definition py_key (v : pyval) : key :=
  match v with
  | PNone => KNone
  | PBool b => if b then KNum 1 0 else KNum 0 0
  | PInt n => let '(m, e) := dyadic n 0 in KNum m e
  | PFloat bits =>
      if is_nan bits then KNaN
      else if is_inf bits then KInf (float_negative bits)
      else let '(m, e) := float_value bits in
           let '(m', e') := dyadic m e in KNum m' e'
  | PStr s => KStr s
  | PList _ | PDict _ => KObj v
  end.

(** Lists and dicts cannot be hashed; [Series.unique] raises on them. *)
Definition hashable (v : pyval) : bool :=
  match v with PList _ | PDict _ => false | _ => true end.

Definition pyval_eq_dec : ∀ x y : pyval, {x = y} + {x ≠ y}.
Proof.
  fix IH 1. intros x y.
  decide equality;
    first [ apply Z.eq_dec | apply Bool.bool_dec | apply String.string_dec
          | apply (List.list_eq_dec IH) | idtac ].
  apply List.list_eq_dec. intros [k1 v1] [k2 v2].
  destruct (String.string_dec k1 k2) as [->|Hk]; [|right; congruence].
  destruct (IH v1 v2) as [->|Hv]; [left; reflexivity|right; congruence].
Defined.

#[global] Instance pyval_eq_decision : EqDecision pyval := pyval_eq_dec.

#[global] Instance key_eq_decision : EqDecision key.
Proof. solve_decision. Defined.

(** ** Tables *)

Inductive label : Type :=
  | LStr (s : string)
  | LInt (n : Z).

#[global] Instance label_eq_decision : EqDecision label.
Proof. solve_decision. Defined.

(** Column dtypes of pandas. *)
Inductive dtype : Type :=
  | int8 | int16 | int32 | int64
  | uint8 | uint16 | uint32 | uint64
  | float16 | float32 | float64
  | bool_ | object_ | category | string_
  | datetime64 | timedelta64.

#[global] Instance dtype_eq_decision : EqDecision dtype.
Proof. solve_decision. Defined.

Definition is_integer_dtype (t : dtype) : bool :=
  match t with
  | int8 | int16 | int32 | int64 | uint8 | uint16 | uint32 | uint64 => true
  | _ => false
  end.

Definition is_float_dtype (t : dtype) : bool :=
  match t with float16 | float32 | float64 => true | _ => false end.

Definition is_string_or_category_dtype (t : dtype) : bool :=
  match t with object_ | category | string_ => true | _ => false end.

(** A DataFrame with a default [RangeIndex]: column labels, one dtype per
    column, and the rows.  A frame may have rows and no column. *)
Record DataFrame : Type := mkDataFrame {
  columns : list label;
  dtypes : list dtype;
  values : list (list pyval)
}.

#[global] Instance DataFrame_eq_decision : EqDecision DataFrame.
Proof. solve_decision. Defined.

Definition wf_DataFrame (df : DataFrame) : Prop :=
  length (dtypes df) = length (columns df) ∧
  Forall (λ row, length row = length (columns df)) (values df).

(** [len(df)] *)
Definition len (df : DataFrame) : nat := length (values df).

(** [df.empty]: some axis has length 0. *)
Definition empty (df : DataFrame) : bool :=
  bool_decide (len df = 0) || bool_decide (length (columns df) = 0).

(** [pd.DataFrame()] *)
Definition DataFrame_empty : DataFrame := mkDataFrame [] [] [].

(** Keep the entries of [l] whose flag in [mask] is set. *)
Fixpoint compress {A} (mask : list bool) (l : list A) : list A :=
  match mask, l with
  | b :: mask', x :: l' => if b then x :: compress mask' l' else compress mask' l'
  | _, _ => []
  end.

(** [df.select_dtypes(include=...)] *)
Definition select_dtypes (include : list dtype) (df : DataFrame) : DataFrame :=
  let mask := (λ t, bool_decide (t ∈ include)) <$> dtypes df in
  mkDataFrame (compress mask (columns df))
              (compress mask (dtypes df))
              (compress mask <$> values df).

(** The cells of the column at position [j]. *)
Definition column_at (df : DataFrame) (j : nat) : list pyval :=
  (λ row, default PNone (row !! j)) <$> values df.

(** The number of missing cells in a list of cells. *)
Definition nulls (cells : list pyval) : nat :=
  length (filter (λ v, isnull v = true) cells).

(** [df.isnull().sum()]: per column, in column order, the number of missing
    cells. *)
Definition isnull_sum (df : DataFrame) : list (label * nat) :=
  imap (λ j c, (c, nulls (column_at df j))) (columns df).

(** The missing cells of the whole table, counted cell by cell. *)
Definition null_count (df : DataFrame) : nat := nulls (concat (values df)).

(** [df[mask]] for a boolean mask over the rows. *)
Definition getitem_mask (df : DataFrame) (mask : list bool) : DataFrame :=
  mkDataFrame (columns df) (dtypes df) (compress mask (values df)).

(** [df[name]] finds the positions labelled [name]. *)
Definition get_loc (df : DataFrame) (name : label) : list nat :=
  (imap (λ j c, if decide (c = name) then [j] else []) (columns df)) ≫= id.

(** The first entry of each key, in order of first appearance. *)
Fixpoint first_by {A K} `{EqDecision K} (f : A → K) (l : list A) : list A :=
  match l with
  | [] => []
  | v :: l' => v :: filter (λ w, f w ≠ f v) (first_by f l')
  end.

(** [Series.unique()]: the distinct values, each as it first appears. *)
Definition unique (cells : list pyval) : list pyval := first_by py_key cells.

(** [v in selected] as pandas' hash tables decide it. *)
Definition py_in (v : pyval) (selected : list pyval) : Prop :=
  py_key v ∈ py_key <$> selected.

#[global] Instance py_in_decision v selected : Decision (py_in v selected).
Proof. unfold py_in. apply _. Defined.

(** [Series.isin(selected)] *)
Definition isin (cells selected : list pyval) : list bool :=
  (λ v, bool_decide (py_in v selected)) <$> cells.

(** ** Exceptions and the outside world *)

(** The exception classes the script tells apart: [requests.exceptions.Timeout]
    is a [RequestException]; every other exception is only an [Exception]. *)
Inductive exn : Type :=
  | Timeout (msg : string)
  | RequestException (msg : string)
  | Exception (msg : string).

(** [str(e)] *)
Definition str (e : exn) : string :=
  match e with Timeout m | RequestException m | Exception m => m end.

Inductive outcome (A : Type) : Type :=
  | Returned (a : A)
  | Raised (e : exn).
Arguments Returned {A} a.
Arguments Raised {A} e.

(** An uploaded file: [uploaded_file.name] and its bytes. *)
Record UploadedFile : Type := mkUploadedFile {
  name : string;
  content : string
}.

Inductive chart_kind : Type :=
  | BarChart | LineChart | ScatterPlot | BoxPlot | Histogram.

(** A plotly-express call: [px.bar(df, x=.., y=.., color=..)] and the like. *)
Record figure : Type := mkFigure {
  fig_kind : chart_kind;
  fig_data : DataFrame;
  fig_x : option label;
  fig_y : option label;
  fig_color : option label
}.

(** The libraries and services behind the script. *)
Class Env : Type := mkEnv {
  (** [pd.read_csv(file)] *)
  read_csv : UploadedFile → outcome DataFrame;
  (** [Session.builder.configs(...).create()] then
      [session.sql(query).to_pandas()] *)
  snowpark_to_pandas : string → outcome DataFrame;
  (** [requests.get(endpoint, timeout=30)], [raise_for_status()] and
      [response.json()] *)
  requests_get_json : string → outcome pyval;
  (** [pd.DataFrame(data)] when [data] is not a list of dicts *)
  DataFrame_other : pyval → outcome DataFrame;
  (** the dtype pandas infers for the cells of a column *)
  infer_dtype : list pyval → dtype;
  (** a cell as stored in a column of the dtype: [1] in a float64 column is
      [1.0], [None] is NaN; an object column keeps the value *)
  astype : dtype → pyval → pyval;
  (** the exception message when a plotly-express call raises *)
  px_raises : figure → option string;
  (** the exception message when [st.dataframe(df)] cannot convert the
      table for display *)
  st_dataframe_raises : DataFrame → option string;
  (** the exception message when writing the workbook raises
      ([pd.ExcelWriter], [df.to_excel], lines 367-370) *)
  to_excel_raises : DataFrame → option string
}.

(** ** The script monad *)

(** [st.session_state] *)
Record session_state : Type := mkSession {
  df : option DataFrame;
  data_source : option string;
  uploaded_filename : option string
}.

(** What a download button offers. *)
Inductive payload : Type :=
  | to_csv (data : DataFrame)
  | to_excel (data : DataFrame) (statistics : option (list label)).

(** What [st.dataframe] shows. *)
Inductive shown : Type :=
  | whole (data : DataFrame)
  | describe (data : DataFrame) (cols : list label)
  | missing_report (rows : list (label * nat)).

(** Elements put on the page. *)
Inductive element : Type :=
  | st_error (body : string)
  | st_warning (body : string)
  | st_success (body : string)
  | st_info (body : string)
  | st_metric (title : string) (value : nat)
  | st_caption (body : string)
  | st_dataframe (data : shown)
  | st_plotly_chart (fig : figure)
  | st_corr_heatmap (data : DataFrame) (cols : list label)
  | st_download_button (data : payload) (file_name : string).

Record world : Type := mkWorld {
  session : session_state;
  page : list element
}.

(** A run ends normally, at [st.stop()], or with an exception nobody
    caught. *)
Inductive result (A : Type) : Type :=
  | Done (a : A) (w : world)
  | Stopped (w : world)
  | Uncaught (e : exn) (w : world).
Arguments Done {A} a w.
Arguments Stopped {A} w.
Arguments Uncaught {A} e w.

Definition script (A : Type) : Type := world → result A.

Definition ret {A} (a : A) : script A := λ w, Done a w.

Definition bind {A B} (m : script A) (k : A → script B) : script B :=
  λ w, match m w with
       | Done a w' => k a w'
       | Stopped w' => Stopped w'
       | Uncaught e w' => Uncaught e w'
       end.

#[global] Instance script_ret : MRet script := @ret.
#[global] Instance script_bind : MBind script := λ A B k m, bind m k.

(** The page with one more element at its end. *)
Definition show (e : element) (w : world) : world :=
  mkWorld (session w) (page w ++ [e]).

Definition emit (e : element) : script unit := λ w, Done () (show e w).

Definition st_stop {A} : script A := Stopped.

Definition raise {A} (e : exn) : script A := Uncaught e.

(** A library call: its value, or its exception raised in the script. *)
Definition call {A} (o : outcome A) : script A :=
  match o with Returned a => ret a | Raised e => raise e end.

(** [try: body  except ...: handler]; [handler e = None] when no clause
    matches [e]. *)
Definition try_except {A} (body : script A) (handler : exn → option (script A))
  : script A :=
  λ w, match body w with
       | Uncaught e w' =>
           match handler e with Some h => h w' | None => Uncaught e w' end
       | r => r
       end.

Definition get_session : script session_state := λ w, Done (session w) w.

Definition set_session (s : session_state) : script unit :=
  λ w, Done () (mkWorld s (page w)).

Definition when (b : bool) (m : script unit) : script unit :=
  if b then m else ret ().

(** The final world of a run, however it ended. *)
Definition final {A} (r : result A) : world :=
  match r with Done _ w | Stopped w | Uncaught _ w => w end.

(** ** The program *)

Section app.
Context `{env : Env}.

(** *** pandas constructors *)

(** A list all of whose elements are dicts. *)
Definition as_records (l : list pyval) : option (list dict) :=
  mapM (λ v, match v with PDict d => Some d | _ => None end) l.

(** [pd.DataFrame(records)]: one row per record; the columns are the keys in
    order of first appearance; a key a record lacks gives NaN; the dtype of
    a column is inferred from its values, and each value is stored as that
    dtype has it.  The index has an entry per record even when no record has
    a key: [pd.DataFrame([{}])] has shape (1, 0). *)
Definition from_records (recs : list dict) : DataFrame :=
  let keys := first_by id (recs ≫= fmap fst) in
  let value r k := default NaN (dict_get r k) in
  let dtype_of k := infer_dtype ((λ r, value r k) <$> recs) in
  mkDataFrame (LStr <$> keys)
              (dtype_of <$> keys)
              ((λ r, (λ k, astype (dtype_of k) (value r k)) <$> keys) <$> recs).

(** [pd.DataFrame(data)] *)
Definition pd_DataFrame (data : pyval) : outcome DataFrame :=
  match data with
  | PList l =>
      match as_records l with
      | Some recs => Returned (from_records recs)
      | None => DataFrame_other data
      end
  | _ => DataFrame_other data
  end.

(** *** Loaders (lines 21-65) *)

Definition load_csv (file : UploadedFile) : script (option DataFrame) :=
  d ← call (read_csv file); mret (Some d).

Definition load_snowflake_data (query : string) : script (option DataFrame) :=
  try_except
    (d ← call (snowpark_to_pandas query); mret (Some d))
    (λ e, Some (emit (st_error ("Snowflake connection error: " +:+ str e));;
                mret None)).

(** [for key in keys: if key in data: return pd.DataFrame(data[key])] finds
    the value it passes on. *)
Fixpoint first_present (keys : list string) (data : dict) : option pyval :=
  match keys with
  | [] => None
  | key :: keys' =>
      match dict_get data key with
      | Some v => Some v
      | None => first_present keys' data
      end
  end.

Definition common_data_keys : list string :=
  ["data"; "results"; "items"; "records"].

(** Lines 51-59: the table built from the decoded body. *)
Definition normalize (data : pyval) : outcome DataFrame :=
  match data with
  | PList _ => pd_DataFrame data
  | PDict d =>
      match first_present common_data_keys d with
      | Some v => pd_DataFrame v
      | None => pd_DataFrame (PList [data])
      end
  | _ => Returned DataFrame_empty
  end.

Definition fetch_api_data (endpoint : string) : script (option DataFrame) :=
  try_except
    (data ← call (requests_get_json endpoint);
     d ← call (normalize data);
     mret (Some d))
    (λ e, match e with
          | Timeout _ =>
              Some (emit (st_error "API request timed out. Please try again.");;
                    mret None)
          | RequestException _ =>
              Some (emit (st_error ("API error: " +:+ str e));; mret None)
          | Exception _ => None
          end).

(** *** Validation and column classes (lines 68-88) *)

Definition validate_dataframe (d : option DataFrame) : script bool :=
  if (match d with None => true | Some d => empty d end) then
    emit (st_error ":material/error: No data loaded");; mret false
  else if bool_decide (from_option len 0 d < 1) then
    emit (st_error ":material/error: Dataset is empty");; mret false
  else mret true.

Definition get_numeric_columns (d : DataFrame) : list label :=
  columns (select_dtypes [int64; float64; int32; float32] d).

Definition get_categorical_columns (d : DataFrame) : list label :=
  columns (select_dtypes [object_; category; string_] d).

(** *** Widgets *)

Inductive source_type : Type := CSV_Upload | Snowflake | API.

(** The widget values of one run. *)
Record widgets : Type := mkWidgets {
  data_source_type : source_type;
  uploaded_file : option UploadedFile;
  query : string;
  execute_query : bool;
  api_endpoint : string;
  fetch_data : bool;
  chart_type : chart_kind;
  pick_x : nat;
  pick_y : nat;
  pick_color : nat;
  pick_filter : nat;
  pick_values : list nat;
  now : string
}.

(** [st.selectbox(options)]: the chosen option, initially the first; [None]
    when there is nothing to choose from. *)
Definition selectbox {A} (options : list A) (i : nat) : option A :=
  match options !! i with
  | Some x => Some x
  | None => head options
  end.

(** [st.selectbox([None] + options)] *)
Definition selectbox_optional {A} (options : list A) (i : nat) : option A :=
  mjoin (selectbox (None :: (Some <$> options)) i).

(** [st.multiselect(options)]: the chosen options, initially none. *)
Definition multiselect {A} (options : list A) (picks : list nat) : list A :=
  omap (λ i, options !! i) picks.

(** *** Sidebar (lines 92-166) *)

Definition set_df (d : DataFrame) : script unit :=
  s ← get_session;
  set_session (mkSession (Some d) (data_source s) (uploaded_filename s)).

Definition set_data_source (v : string) : script unit :=
  s ← get_session;
  set_session (mkSession (df s) (Some v) (uploaded_filename s)).

Definition set_uploaded_filename (v : string) : script unit :=
  s ← get_session;
  set_session (mkSession (df s) (data_source s) (Some v)).

Definition loaded (d : DataFrame) : element :=
  st_success (":material/check_circle: Loaded " +:+ pretty (len d) +:+ " rows").

Definition csv_upload (ui : widgets) : script unit :=
  match uploaded_file ui with
  | Some file =>
      r ← load_csv file;
      match r with
      | Some d =>
          set_df d;;
          set_data_source "CSV";;
          set_uploaded_filename (name file);;
          emit (loaded d)
      | None => mret ()
      end
  | None => mret ()
  end.

Definition snowflake (ui : widgets) : script unit :=
  emit (st_info "Configure Snowflake credentials in `.streamlit/secrets.toml`");;
  when (execute_query ui)
    (r ← load_snowflake_data (query ui);
     match r with
     | Some d => set_df d;; set_data_source "Snowflake";; emit (loaded d)
     | None => mret ()
     end).

Definition api (ui : widgets) : script unit :=
  emit (st_info "Provide a REST API endpoint that returns JSON");;
  when (fetch_data ui)
    (r ← fetch_api_data (api_endpoint ui);
     match r with
     | Some d => set_df d;; set_data_source "API";; emit (loaded d)
     | None => mret ()
     end).

Definition dataset_info : script unit :=
  s ← get_session;
  match df s with
  | Some d =>
      emit (st_metric "Rows" (len d));;
      emit (st_metric "Columns" (length (columns d)));;
      match uploaded_filename s with
      | Some f => when (bool_decide (f ≠ "")) (emit (st_caption ("File: " +:+ f)))
      | None => mret ()
      end
  | None => mret ()
  end.

Definition sidebar (ui : widgets) : script unit :=
  match data_source_type ui with
  | CSV_Upload => csv_upload ui
  | Snowflake => snowflake ui
  | API => api ui
  end;;
  dataset_info.

(** *** Data tab (lines 207-228) *)

Definition data_tab (d : DataFrame) : script unit :=
  match st_dataframe_raises d with
  | Some msg => raise (Exception msg)
  | None => emit (st_dataframe (whole d))
  end;;
  emit (st_metric "Total Rows" (len d));;
  emit (st_metric "Total Columns" (length (columns d)));;
  emit (st_metric "Numeric Columns" (length (get_numeric_columns d)));;
  emit (st_metric "Categorical Columns" (length (get_categorical_columns d))).

(** *** Charts tab (lines 230-297) *)

(** The plotly-express call each chart type makes from the selections. *)
Definition chart_of (ui : widgets) (d : DataFrame) : figure :=
  let numeric_cols := get_numeric_columns d in
  let categorical_cols := get_categorical_columns d in
  let all_cols := columns d in
  match chart_type ui with
  | BarChart | LineChart =>
      mkFigure (chart_type ui) d
        (selectbox all_cols (pick_x ui))
        (selectbox numeric_cols (pick_y ui))
        (selectbox_optional categorical_cols (pick_color ui))
  | ScatterPlot =>
      mkFigure ScatterPlot d
        (selectbox numeric_cols (pick_x ui))
        (selectbox numeric_cols (pick_y ui))
        (selectbox_optional categorical_cols (pick_color ui))
  | BoxPlot =>
      mkFigure BoxPlot d
        (selectbox_optional categorical_cols (pick_x ui))
        (selectbox numeric_cols (pick_y ui))
        None
  | Histogram =>
      mkFigure Histogram d
        (selectbox numeric_cols (pick_x ui))
        None
        (selectbox_optional categorical_cols (pick_color ui))
  end.

(** [px.bar(...)] and the like: the figure, or plotly's exception. *)
Definition px (fig : figure) : script figure :=
  match px_raises fig with
  | Some msg => raise (Exception msg)
  | None => mret fig
  end.

Definition charts_tab (ui : widgets) (d : DataFrame) : script unit :=
  let numeric_cols := get_numeric_columns d in
  (if bool_decide (length numeric_cols = 0) then
     emit (st_warning "No numeric columns found for visualization");;
     st_stop
   else mret ());;
  try_except
    (fig ← px (chart_of ui d);
     emit (st_plotly_chart fig))
    (λ e, Some (emit (st_error ("Error generating chart: " +:+ str e)))).

(** *** Statistics tab (lines 299-343) *)

(** Lines 332-338.  The frame has a row per column of [d], with its label
    and its missing count; the percentage column, a float derived from the
    count and [len(d)], is left out.  Rows with no missing cell are dropped. *)
Definition missing_df (d : DataFrame) : list (label * nat) :=
  filter (λ r, 0 < r.2) (isnull_sum d).

Definition missing_values (d : DataFrame) : script unit :=
  if bool_decide (0 < length (missing_df d)) then
    emit (st_dataframe (missing_report (missing_df d)))
  else
    emit (st_success ":material/check_circle: No missing values found!").

Definition statistics_tab (d : DataFrame) : script unit :=
  let numeric_cols := get_numeric_columns d in
  (if bool_decide (0 < length numeric_cols) then
     emit (st_dataframe (describe d numeric_cols));;
     when (bool_decide (1 < length numeric_cols))
          (emit (st_corr_heatmap d numeric_cols))
   else
     emit (st_info "No numeric columns available for statistical analysis"));;
  missing_values d.

(** *** Export tab (lines 345-402) *)

(** [df[filter_col].unique().tolist()] together with the column it reads.
    With a repeated label [df[filter_col]] is a frame, which has no
    [unique]; a cell that cannot be hashed makes [unique] raise. *)
Definition filter_column (d : DataFrame) (filter_col : label)
  : outcome (list pyval * list pyval) :=
  match get_loc d filter_col with
  | [] => Raised (Exception "KeyError")
  | [j] =>
      let cells := column_at d j in
      if forallb hashable cells then Returned (cells, unique cells)
      else Raised (Exception "TypeError: unhashable type")
  | _ => Raised (Exception "AttributeError: 'DataFrame' object has no attribute 'unique'")
  end.

(** Line 392: [df[df[filter_col].isin(selected_values)]] *)
Definition filtered_df (d : DataFrame) (cells selected_values : list pyval)
  : DataFrame :=
  getitem_mask d (isin cells selected_values).

Definition export_options (ui : widgets) (d : DataFrame) : script unit :=
  if bool_decide (0 < length (get_categorical_columns d)) then
    match selectbox (get_categorical_columns d) (pick_filter ui) with
    | Some filter_col =>
        '(cells, unique_values) ← call (filter_column d filter_col);
        let selected_values := multiselect unique_values (pick_values ui) in
        if bool_decide (selected_values ≠ []) then
          let filtered := filtered_df d cells selected_values in
          emit (st_metric "Filtered Rows" (len filtered));;
          emit (st_download_button (to_csv filtered)
                  ("dashboard_filtered_" +:+ now ui +:+ ".csv"))
        else mret ()
    | None => mret ()
    end
  else mret ().

Definition export_tab (ui : widgets) (d : DataFrame) : script unit :=
  let timestamp := now ui in
  emit (st_download_button (to_csv d)
          ("dashboard_export_" +:+ timestamp +:+ ".csv"));;
  match to_excel_raises d with
  | Some msg => raise (Exception msg)
  | None =>
      emit (st_download_button
              (to_excel d (if bool_decide (0 < length (get_numeric_columns d))
                           then Some (get_numeric_columns d) else None))
              ("dashboard_export_" +:+ timestamp +:+ ".xlsx"))
  end;;
  export_options ui d.

(** *** Main content (lines 169-406) *)

Definition footer : script unit :=
  s ← get_session;
  emit (st_caption ("Dashboard powered by Streamlit | Data source: "
                    +:+ default "None" (data_source s))).

Definition main_content (ui : widgets) : script unit :=
  s ← get_session;
  match df s with
  | None =>
      emit (st_info ":material/arrow_back: Please select a data source from the sidebar to get started");;
      st_stop
  | Some d =>
      ok ← validate_dataframe (Some d);
      when (negb ok) st_stop;;
      data_tab d;;
      charts_tab ui d;;
      statistics_tab d;;
      export_tab ui d;;
      footer
  end.

(** One run of the script. *)
Definition app (ui : widgets) : script unit :=
  sidebar ui;; main_content ui.

End app.

(** ** A sample environment

    Used where a statement is evaluated on concrete inputs.  The CSV parser
    knows two uploads: an empty file, on which pandas raises
    [EmptyDataError], and the CSV of the start page (lines 180-183).  The
    endpoint of the start page answers with its example body (lines
    186-191); two more endpoints answer [{}] and time out. *)

Definition example_csv : string :=
  "date,category,value,count
2024-01-01,A,100,5
2024-01-02,B,150,8
2024-01-03,A,120,6".

Definition example_table : DataFrame :=
  mkDataFrame
    [LStr "date"; LStr "category"; LStr "value"; LStr "count"]
    [object_; object_; int64; int64]
    [[PStr "2024-01-01"; PStr "A"; PInt 100; PInt 5];
     [PStr "2024-01-02"; PStr "B"; PInt 150; PInt 8];
     [PStr "2024-01-03"; PStr "A"; PInt 120; PInt 6]].

Definition example_body : pyval :=
  PDict [("data",
          PList [PDict [("date", PStr "2024-01-01"); ("category", PStr "A");
                        ("value", PInt 100)];
                 PDict [("date", PStr "2024-01-02"); ("category", PStr "B");
                        ("value", PInt 150)]])].

Definition sample_infer_dtype (cells : list pyval) : dtype :=
  if forallb (λ v, match v with PInt _ => true | _ => false end) cells
  then int64
  else if forallb (λ v, match v with PInt _ | PFloat _ | PNone => true
                                | _ => false end) cells
  then float64
  else object_.

(** [float(n)] as a bit pattern, rounding to nearest, ties to even; for
    integers below 2 ^ 1024 in size. *)
Definition float_of_int (n : Z) : Z :=
  (if n =? 0 then 0
   else
     let a := Z.abs n in
     let p := Z.log2 a in
     let sign := if n <? 0 then 2 ^ 63 else 0 in
     let mantissa :=
       if p <=? 52 then a * 2 ^ (52 - p)
       else
         let q := a / 2 ^ (p - 52) in
         let r := a mod 2 ^ (p - 52) in
         let half := 2 ^ (p - 53) in
         if ((half <? r) || ((r =? half) && Z.odd q))%bool then q + 1 else q in
     sign + (p + 1023) * 2 ^ 52 + (mantissa - 2 ^ 52))%Z.

Definition sample_astype (t : dtype) (v : pyval) : pyval :=
  match t, v with
  | float64, PNone => NaN
  | float64, PInt n => PFloat (float_of_int n)
  | _, _ => v
  end.

Definition sample_env : Env := {|
  read_csv file :=
    if decide (content file = "") then
      Raised (Exception "No columns to parse from file")
    else if decide (content file = example_csv) then Returned example_table
    else Raised (Exception "Error tokenizing data");
  snowpark_to_pandas query :=
    Raised (Exception "Failed to connect to DB");
  requests_get_json endpoint :=
    if decide (endpoint = "https://api.example.com/data") then
      Returned example_body
    else if decide (endpoint = "https://api.example.com/empty") then
      Returned (PDict [])
    else if decide (endpoint = "https://api.example.com/slow") then
      Raised (Timeout "Read timed out. (read timeout=30)")
    else Raised (RequestException "404 Client Error: Not Found");
  DataFrame_other data :=
    Raised (Exception "DataFrame constructor not properly called!");
  infer_dtype := sample_infer_dtype;
  astype := sample_astype;
  px_raises fig := None;
  st_dataframe_raises d := None;
  to_excel_raises d := None
|}.

(** A fresh session (lines 16-18) and an empty page. *)
Definition initial_session : session_state := mkSession None None None.
Definition initial_world : world := mkWorld initial_session [].

(** Default widget values. *)
Definition default_widgets : widgets := {|
  data_source_type := CSV_Upload;
  uploaded_file := None;
  query := "SELECT * FROM MY_TABLE LIMIT 1000";
  execute_query := false;
  api_endpoint := "https://api.example.com/data";
  fetch_data := false;
  chart_type := BarChart;
  pick_x := 0; pick_y := 0; pick_color := 0;
  pick_filter := 0; pick_values := [];
  now := "20240101_120000"
|}.

(** A run with [file] in the uploader. *)
Definition csv_run (file : UploadedFile) : widgets := {|
  data_source_type := CSV_Upload;
  uploaded_file := Some file;
  query := query default_widgets;
  execute_query := false;
  api_endpoint := api_endpoint default_widgets;
  fetch_data := false;
  chart_type := BarChart;
  pick_x := 0; pick_y := 0; pick_color := 0;
  pick_filter := 0; pick_values := [];
  now := "20240101_120000"
|}.

(** A run in which "Execute Query" was pressed. *)
Definition snowflake_run (sql : string) : widgets := {|
  data_source_type := Snowflake;
  uploaded_file := None;
  query := sql;
  execute_query := true;
  api_endpoint := api_endpoint default_widgets;
  fetch_data := false;
  chart_type := BarChart;
  pick_x := 0; pick_y := 0; pick_color := 0;
  pick_filter := 0; pick_values := [];
  now := "20240101_120500"
|}.

(** A run in which "Fetch Data" was pressed. *)
Definition api_run (endpoint : string) : widgets := {|
  data_source_type := API;
  uploaded_file := None;
  query := query default_widgets;
  execute_query := false;
  api_endpoint := endpoint;
  fetch_data := true;
  chart_type := BarChart;
  pick_x := 0; pick_y := 0; pick_color := 0;
  pick_filter := 0; pick_values := [];
  now := "20240101_121000"
|}.

(** The next run starts from the session the last one left, on a cleared
    page. *)
Definition rerun {A} (r : result A) : world :=
  mkWorld (session (final r)) [].

(** ** Vocabulary of the statements *)

(** A script that leaves [st.session_state] as it found it. *)
Definition keeps_session {A} (m : script A) : Prop :=
  ∀ w, session (final (m w)) = session w.

(** What [fetch_api_data] does with an exception raised in its body. *)
Definition api_handler (e : exn) (w : world) : result (option DataFrame) :=
  match e with
  | Timeout _ =>
      Done None (show (st_error "API request timed out. Please try again.") w)
  | RequestException _ =>
      Done None (show (st_error ("API error: " +:+ str e)) w)
  | Exception _ => Uncaught e w
  end.

(** The loader a run calls, if it calls one: the file loader whenever a file
    is in the uploader, the other two when their button was pressed. *)
Definition requested_load `{env : Env} (ui : widgets) : option (script (option DataFrame)) :=
  match data_source_type ui with
  | CSV_Upload => load_csv <$> uploaded_file ui
  | Snowflake =>
      if execute_query ui then Some (load_snowflake_data (query ui)) else None
  | API =>
      if fetch_data ui then Some (fetch_api_data (api_endpoint ui)) else None
  end.

(** A loader that fails: it returns [None] or raises, whatever the page. *)
Definition fails (load : script (option DataFrame)) : Prop :=
  ∀ w d w', load w ≠ Done (Some d) w'.

(** The value [st.session_state.data_source] gets for each source. *)
Definition source_name (kind : source_type) : string :=
  match kind with
  | CSV_Upload => "CSV"
  | Snowflake => "Snowflake"
  | API => "API"
  end.

(** What the API loader makes of an endpoint before its handlers: the table
    of the body, or the exception raised on the way. *)
Definition fetched `{env : Env} (endpoint : string) : outcome DataFrame :=
  match requests_get_json endpoint with
  | Returned data => normalize data
  | Raised e => Raised e
  end.

(** The session after a successful load from Snowflake or the API. *)
Definition loaded_from (kind : string) (d : DataFrame) (s : session_state)
  : session_state :=
  mkSession (Some d) (Some kind) (uploaded_filename s).

(** What the Dataset Info block shows for a session. *)
Definition dataset_info_elements (s : session_state) : list element :=
  match df s with
  | Some d =>
      [st_metric "Rows" (len d); st_metric "Columns" (length (columns d))] ++
      match uploaded_filename s with
      | Some f => if bool_decide (f ≠ "") then [st_caption ("File: " +:+ f)] else []
      | None => []
      end
  | None => []
  end.

(** What the data tab shows for a table. *)
Definition data_tab_elements (d : DataFrame) : list element :=
  [st_dataframe (whole d);
   st_metric "Total Rows" (len d);
   st_metric "Total Columns" (length (columns d));
   st_metric "Numeric Columns" (length (get_numeric_columns d));
   st_metric "Categorical Columns" (length (get_categorical_columns d))].

(** The exceptions the main content lets through for the stored table [d]:
    that of [st.dataframe(df)] in the data tab, that of writing the
    workbook, and that of listing the values of the filter column. *)
Definition main_content_raises `{env : Env} (d : DataFrame) (e : exn) : Prop :=
  (∃ msg, st_dataframe_raises d = Some msg ∧ e = Exception msg) ∨
  (∃ msg, to_excel_raises d = Some msg ∧ e = Exception msg) ∨
  (∃ filter_col, filter_col ∈ get_categorical_columns d ∧
                 filter_column d filter_col = Raised e).

(** A script whose uncaught exceptions all satisfy [P]. *)
Definition raises_only {A} (P : exn → Prop) (m : script A) : Prop :=
  ∀ w e w', m w = Uncaught e w' → P e.

Ltac unfold_script :=
  unfold mbind, script_bind, bind, mret, script_ret, ret, emit, show, st_stop,
         raise, call, try_except, get_session, set_session, when in *.

(** ** Properties *)

(** *** Reasoning about scripts *)

Create HintDb keeps discriminated.

Lemma keeps_ret {A} (a : A) : keeps_session (mret a).
Proof. intros w. reflexivity. Qed.

Lemma keeps_emit e : keeps_session (emit e).
Proof. intros w. reflexivity. Qed.

Lemma keeps_stop {A} : keeps_session (@st_stop A).
Proof. intros w. reflexivity. Qed.

Lemma keeps_raise {A} e : keeps_session (@raise A e).
Proof. intros w. reflexivity. Qed.

Lemma keeps_call {A} (o : outcome A) : keeps_session (call o).
Proof. intros w. destruct o; reflexivity. Qed.

Lemma keeps_get_session : keeps_session get_session.
Proof. intros w. reflexivity. Qed.

Lemma keeps_bind {A B} (m : script A) (k : A → script B) :
  keeps_session m → (∀ a, keeps_session (k a)) → keeps_session (m ≫= k).
Proof.
  intros Hm Hk w. specialize (Hm w). unfold_script.
  destruct (m w) as [a w'| |]; simpl in *; try assumption.
  rewrite Hk. assumption.
Qed.

Lemma keeps_try_except {A} (body : script A) handler :
  keeps_session body →
  (∀ e h, handler e = Some h → keeps_session h) →
  keeps_session (try_except body handler).
Proof.
  intros Hb Hh w. specialize (Hb w). unfold_script.
  destruct (body w) as [a w'| |e w']; simpl in *; try assumption.
  destruct (handler e) as [h|] eqn:E; simpl; [|assumption].
  rewrite (Hh _ _ E). assumption.
Qed.

Lemma keeps_when b m : keeps_session m → keeps_session (when b m).
Proof. intros Hm. destruct b; simpl; [assumption|apply keeps_ret]. Qed.

#[global] Hint Resolve keeps_ret keeps_emit keeps_stop keeps_raise keeps_call
  keeps_get_session keeps_bind keeps_try_except keeps_when : keeps.

(** *** The validator *)

Lemma empty_spec d : empty d = true ↔ len d = 0 ∨ length (columns d) = 0.
Proof.
  unfold empty. rewrite orb_true_iff, !bool_decide_eq_true. reflexivity.
Qed.

(** C2, as the code has it: the validator always returns, without touching
    the session; it returns [False] exactly when the table is absent, has no
    row or has no column, and then reports "No data loaded"; a table with at
    least one row and one column is accepted and nothing is shown. *)
Theorem validate_dataframe_rejects_iff_absent_or_empty (d : option DataFrame) (w : world) :
  ∃ b : bool, validate_dataframe d w
       = Done b (if b then w
                 else show (st_error ":material/error: No data loaded") w)
       ∧ (b = false ↔
            d = None ∨ ∃ t, d = Some t ∧ (len t = 0 ∨ length (columns t) = 0)).
Proof.
  unfold validate_dataframe. destruct d as [t|]; simpl.
  - destruct (empty t) eqn:E.
    + exists false. split; [reflexivity|]. split; [|reflexivity].
      intros _. right. exists t. split; [reflexivity|]. by apply empty_spec.
    + assert (Hpos : ¬ (len t = 0 ∨ length (columns t) = 0)).
      { rewrite <- empty_spec. congruence. }
      rewrite bool_decide_eq_false_2 by lia.
      exists true. split.
      * reflexivity.
      * split; [discriminate|]. intros [Hn|(t' & Ht & Ht')]; [discriminate|]. injection Ht as <-. tauto.
  - exists false. split; [reflexivity|]. split; [|reflexivity]. intros _. by left.
Qed.

(** C2 as stated fails on a table with a row and no column, such as
    [pd.DataFrame([{}])]: it has one row and is rejected. *)
Lemma validate_dataframe_rejects_a_table_with_a_row :
  len (mkDataFrame [] [] [[]]) = 1 ∧
  validate_dataframe (Some (mkDataFrame [] [] [[]])) initial_world
  = Done false (mkWorld initial_session
                  [st_error ":material/error: No data loaded"]).
Proof. split; reflexivity. Qed.

(** *** The API loader's normalisation *)

Section normalize.
Context `{env : Env}.

Lemma first_present_None keys d :
  first_present keys d = None ↔ ∀ k, k ∈ keys → dict_get d k = None.
Proof.
  induction keys as [|key keys IH]; simpl.
  - split; [|done]. intros _ k Hk. inversion Hk.
  - destruct (dict_get d key) eqn:E.
    + split; [discriminate|]. intros H. rewrite H in E; [done|left].
    + rewrite IH. split.
      * intros H k Hk. apply elem_of_cons in Hk as [->|Hk]; auto.
      * intros H k Hk. apply H. by right.
Qed.

Lemma first_present_app (pre : list string) key post d v :
  (∀ k, k ∈ pre → dict_get d k = None) →
  dict_get d key = Some v →
  first_present (pre ++ key :: post)%list d = Some v.
Proof.
  intros Hpre Hkey. induction pre as [|k pre IH]; simpl.
  - by rewrite Hkey.
  - rewrite (Hpre k) by left. apply IH. intros k' Hk'. apply Hpre. by right.
Qed.

Lemma as_records_dicts recs : as_records (PDict <$> recs) = Some recs.
Proof.
  unfold as_records. apply mapM_Some. induction recs; constructor; done.
Qed.

Lemma len_from_records recs : len (from_records recs) = length recs.
Proof. unfold len, from_records. simpl. by rewrite length_fmap. Qed.

Lemma pd_DataFrame_records recs :
  pd_DataFrame (PList (PDict <$> recs)) = Returned (from_records recs).
Proof. unfold pd_DataFrame. by rewrite as_records_dicts. Qed.

(** Row [i] of [pd.DataFrame(records)] is record [i]: under column [k] it
    holds [r[k]], or NaN when [r] has no key [k], as the dtype of the column
    stores it. *)
Lemma from_records_row recs i r :
  recs !! i = Some r →
  ∃ row, values (from_records recs) !! i = Some row ∧
         length row = length (columns (from_records recs)) ∧
         ∀ j k ty, columns (from_records recs) !! j = Some (LStr k) →
                   dtypes (from_records recs) !! j = Some ty →
                   row !! j = Some (astype ty (default NaN (dict_get r k))).
Proof.
  intros Hi. unfold from_records; simpl.
  eexists. split; [by rewrite list_lookup_fmap, Hi|].
  split; [by rewrite !length_fmap|].
  intros j k ty Hj Hty. rewrite list_lookup_fmap in Hj.
  rewrite list_lookup_fmap in Hty.
  rewrite list_lookup_fmap.
  destruct (first_by id (recs ≫= fmap fst) !! j) as [k'|]; simpl in *;
    congruence.
Qed.

Lemma as_records_length l recs : as_records l = Some recs → length recs = length l.
Proof. unfold as_records. intros H. symmetry. by eapply length_mapM. Qed.

(** C5: the decoded body becomes a table by this precedence.  (a) A list
    is handed to [pd.DataFrame] as it is; a list of objects gives one row per
    element, row [i] holding the fields of element [i]; and on every list,
    as long as the constructor gives an entry of the index to each element
    of the lists it accepts, the table has one row per element.  (b) In an
    object the value of "data" is handed to [pd.DataFrame] if the key is
    present; if not, that of "results"; if neither, that of "items"; if
    none of the three, that of "records".  (c) An object with none of the
    four keys becomes the only row of the table. *)
Theorem normalize_precedence :
  (∀ l, normalize (PList l) = pd_DataFrame (PList l)) ∧
  (∀ recs, ∃ t, normalize (PList (PDict <$> recs)) = Returned t ∧
      len t = length recs ∧
      ∀ i r, recs !! i = Some r →
        ∃ row, values t !! i = Some row ∧
          ∀ j k ty, columns t !! j = Some (LStr k) →
                    dtypes t !! j = Some ty →
                    row !! j = Some (astype ty (default NaN (dict_get r k)))) ∧
  ((∀ l t, DataFrame_other (PList l) = Returned t → len t = length l) →
   ∀ l t, normalize (PList l) = Returned t → len t = length l) ∧
  (∀ d v, dict_get d "data" = Some v →
      normalize (PDict d) = pd_DataFrame v) ∧
  (∀ d v, dict_get d "data" = None → dict_get d "results" = Some v →
      normalize (PDict d) = pd_DataFrame v) ∧
  (∀ d v, dict_get d "data" = None → dict_get d "results" = None →
      dict_get d "items" = Some v →
      normalize (PDict d) = pd_DataFrame v) ∧
  (∀ d v, dict_get d "data" = None → dict_get d "results" = None →
      dict_get d "items" = None → dict_get d "records" = Some v →
      normalize (PDict d) = pd_DataFrame v) ∧
  (∀ d, dict_get d "data" = None → dict_get d "results" = None →
      dict_get d "items" = None → dict_get d "records" = None →
      normalize (PDict d) = pd_DataFrame (PList [PDict d]) ∧
      pd_DataFrame (PList [PDict d]) = Returned (from_records [d]) ∧
      len (from_records [d]) = 1).
Proof.
  split; [reflexivity|]. split_and!.
  - intros recs. exists (from_records recs).
    split; [apply pd_DataFrame_records|].
    split; [apply len_from_records|].
    intros i r Hi. destruct (from_records_row recs i r Hi) as (row & ? & _ & ?).
    by exists row.
  - intros Hother l t. unfold normalize, pd_DataFrame.
    destruct (as_records l) as [recs|] eqn:E; [|apply Hother].
    intros [= <-]. rewrite len_from_records. by eapply as_records_length.
  - intros d v H1. unfold normalize. simpl. by rewrite H1.
  - intros d v H1 H2. unfold normalize. simpl. by rewrite H1, H2.
  - intros d v H1 H2 H3. unfold normalize. simpl. by rewrite H1, H2, H3.
  - intros d v H1 H2 H3 H4. unfold normalize. simpl.
    by rewrite H1, H2, H3, H4.
  - intros d H1 H2 H3 H4. unfold normalize. simpl.
    rewrite H1, H2, H3, H4.
    split; [reflexivity|]. split; [|apply len_from_records].
    apply (pd_DataFrame_records [d]).
Qed.

(** C1, as the code has it: an object body with none of the keys data,
    results, items, records always becomes a table of exactly one row, built
    from the object; for the empty object that table has one row and no
    column, so [df.empty] holds of it while its row count is 1. *)
Theorem normalize_object_without_common_key (d : dict) :
  (∀ k, k ∈ common_data_keys → dict_get d k = None) →
  normalize (PDict d) = Returned (from_records [d]) ∧
  len (from_records [d]) = 1 ∧
  (d = [] → from_records [d] = mkDataFrame [] [] [[]] ∧
            empty (from_records [d]) = true).
Proof.
  intros Hnone. unfold normalize.
  apply first_present_None in Hnone. rewrite Hnone.
  split; [apply (pd_DataFrame_records [d])|].
  split; [apply len_from_records|].
  intros ->. split; reflexivity.
Qed.

(** Line 59: a body that is neither a list nor an object gives
    [pd.DataFrame()], which has no row. *)
Lemma normalize_scalar data :
  match data with PList _ | PDict _ => False | _ => True end →
  normalize data = Returned DataFrame_empty ∧ len DataFrame_empty = 0.
Proof. destruct data; simpl; intros []; split; reflexivity. Qed.

End normalize.

(** A body with "records" before "items" and neither "data" nor "results":
    the rows are those of "items", two rows under the one column [a]. *)
Lemma normalize_precedence_items :
  @normalize sample_env
    (PDict [("records", PList [PDict [("a", PInt 7)]]);
            ("items", PList [PDict [("a", PInt 1)]; PDict [("a", PInt 2)]])])
  = Returned (mkDataFrame [LStr "a"] [int64] [[PInt 1]; [PInt 2]]).
Proof.
  destruct (@normalize_precedence sample_env) as (_ & _ & _ & _ & _ & Hitems & _).
  rewrite (Hitems _ (PList [PDict [("a", PInt 1)]; PDict [("a", PInt 2)]]));
    reflexivity.
Defined.

(** The body [{}] has none of the keys, and its table has one row. *)
Lemma normalize_empty_object_one_row :
  (∀ k, k ∈ common_data_keys → dict_get [] k = None) ∧
  @normalize sample_env (PDict []) = Returned (@from_records sample_env [[]]) ∧
  len (@from_records sample_env [[]]) = 1.
Proof.
  assert (H : ∀ k, k ∈ common_data_keys → dict_get [] k = None) by done.
  split; [exact H|].
  destruct (@normalize_object_without_common_key sample_env [] H) as (? & ? & _).
  split; assumption.
Defined.

(** C1 as stated fails on the body [{}]: the loader returns a table with one
    row, not zero. *)
Lemma normalize_empty_object_has_a_row :
  @normalize sample_env (PDict []) = Returned (mkDataFrame [] [] [[]]) ∧
  len (mkDataFrame [] [] [[]]) = 1 ∧
  len (mkDataFrame [] [] [[]]) ≠ 0.
Proof. split; [reflexivity|]. split; [reflexivity|discriminate]. Qed.

(** *** The loaders *)

Section loaders.
Context `{env : Env}.

(** [load_csv] has no handler: what the parser raises leaves the loader. *)
Lemma load_csv_run file w :
  load_csv file w = match read_csv file with
                    | Returned d => Done (Some d) w
                    | Raised e => Uncaught e w
                    end.
Proof. unfold load_csv. unfold_script. by destruct (read_csv file). Qed.

(** [load_snowflake_data] catches every exception, reports it and returns
    [None]. *)
Lemma load_snowflake_data_run query w :
  load_snowflake_data query w =
  match snowpark_to_pandas query with
  | Returned d => Done (Some d) w
  | Raised e =>
      Done None (show (st_error ("Snowflake connection error: " +:+ str e)) w)
  end.
Proof.
  unfold load_snowflake_data. unfold_script.
  by destruct (snowpark_to_pandas query).
Qed.

(** [fetch_api_data] catches the exceptions of [requests] only. *)
Lemma fetch_api_data_run endpoint w :
  fetch_api_data endpoint w =
  match requests_get_json endpoint with
  | Returned data =>
      match normalize data with
      | Returned d => Done (Some d) w
      | Raised e => api_handler e w
      end
  | Raised e => api_handler e w
  end.
Proof.
  unfold fetch_api_data. unfold_script.
  destruct (requests_get_json endpoint) as [data|[]]; simpl; try reflexivity.
  destruct (normalize data) as [d|[]]; reflexivity.
Qed.

Lemma keeps_load_csv file : keeps_session (load_csv file).
Proof. intros w. rewrite load_csv_run. by destruct (read_csv file). Qed.

Lemma keeps_load_snowflake_data query : keeps_session (load_snowflake_data query).
Proof.
  intros w. rewrite load_snowflake_data_run.
  by destruct (snowpark_to_pandas query).
Qed.

Lemma keeps_fetch_api_data endpoint : keeps_session (fetch_api_data endpoint).
Proof.
  intros w. rewrite fetch_api_data_run.
  destruct (requests_get_json endpoint) as [data|[]]; simpl; try reflexivity.
  destruct (normalize data) as [d|[]]; reflexivity.
Qed.

End loaders.

#[global] Hint Resolve keeps_load_csv keeps_load_snowflake_data
  keeps_fetch_api_data : keeps.

(** C3 fails in the file loader.  An empty upload makes [pd.read_csv] raise;
    [load_csv] does not catch it, returns nothing and shows nothing, and the
    run of the script ends on the exception.  The warehouse loader on its
    failure reports and returns [None]. *)
Example load_csv_error_is_not_caught :
  let upload := mkUploadedFile "empty.csv" "" in
  @load_csv sample_env upload initial_world
  = Uncaught (Exception "No columns to parse from file") initial_world ∧
  @app sample_env (csv_run upload) initial_world
  = Uncaught (Exception "No columns to parse from file") initial_world ∧
  @load_snowflake_data sample_env "SELECT 1" initial_world
  = Done None
      (mkWorld initial_session
         [st_error "Snowflake connection error: Failed to connect to DB"]).
Proof. repeat split; reflexivity. Qed.

(** *** The main content never writes the session *)

Section main_content.
Context `{env : Env}.

Lemma keeps_validate_dataframe d : keeps_session (validate_dataframe d).
Proof.
  intros w. unfold validate_dataframe.
  destruct d as [t|]; simpl; [|reflexivity].
  destruct (empty t); [reflexivity|]. case_bool_decide; reflexivity.
Qed.

Lemma keeps_data_tab d : keeps_session (data_tab d).
Proof.
  unfold data_tab. apply keeps_bind; [|auto 10 with keeps].
  destruct (st_dataframe_raises d); auto with keeps.
Qed.

Lemma keeps_px fig : keeps_session (px fig).
Proof. unfold px. destruct (px_raises fig); auto with keeps. Qed.

Lemma keeps_charts_tab ui d : keeps_session (charts_tab ui d).
Proof.
  unfold charts_tab. apply keeps_bind.
  - case_bool_decide; auto with keeps.
  - intros _. apply keeps_try_except.
    + apply keeps_bind; [apply keeps_px|auto with keeps].
    + intros e h [= <-]. auto with keeps.
Qed.

Lemma keeps_missing_values d : keeps_session (missing_values d).
Proof. unfold missing_values. case_bool_decide; auto with keeps. Qed.

Lemma keeps_statistics_tab d : keeps_session (statistics_tab d).
Proof.
  unfold statistics_tab. apply keeps_bind.
  - case_bool_decide; auto with keeps.
  - intros _. apply keeps_missing_values.
Qed.

Lemma keeps_export_options ui d : keeps_session (export_options ui d).
Proof.
  unfold export_options. case_bool_decide; [|auto with keeps].
  destruct (selectbox _ _) as [filter_col|]; [|auto with keeps].
  apply keeps_bind; [auto with keeps|]. intros [cells unique_values].
  case_bool_decide; auto with keeps.
Qed.

Lemma keeps_export_tab ui d : keeps_session (export_tab ui d).
Proof.
  unfold export_tab. apply keeps_bind; [auto with keeps|]. intros _.
  apply keeps_bind; [|intros _; apply keeps_export_options].
  destruct (to_excel_raises d); auto with keeps.
Qed.

Lemma keeps_footer : keeps_session footer.
Proof. unfold footer. auto with keeps. Qed.

Lemma keeps_main_content ui : keeps_session (main_content ui).
Proof.
  unfold main_content. apply keeps_bind; [auto with keeps|]. intros s.
  destruct (df s) as [d|]; [|auto with keeps].
  apply keeps_bind; [apply keeps_validate_dataframe|]. intros ok.
  apply keeps_bind; [auto with keeps|]. intros _.
  apply keeps_bind; [apply keeps_data_tab|]. intros _.
  apply keeps_bind; [apply keeps_charts_tab|]. intros _.
  apply keeps_bind; [apply keeps_statistics_tab|]. intros _.
  apply keeps_bind; [apply keeps_export_tab|]. intros _.
  apply keeps_footer.
Qed.

Lemma keeps_dataset_info : keeps_session dataset_info.
Proof.
  unfold dataset_info. apply keeps_bind; [auto with keeps|]. intros s.
  destruct (df s); [|auto with keeps].
  apply keeps_bind; [auto with keeps|]. intros _.
  apply keeps_bind; [auto with keeps|]. intros _.
  destruct (uploaded_filename s); auto with keeps.
Qed.

(** The session a run of the whole script leaves is the one its sidebar
    branch leaves. *)
Lemma session_bind_keeps {A B} (m : script A) (k : A → script B) w :
  (∀ a, keeps_session (k a)) →
  session (final ((m ≫= k) w)) = session (final (m w)).
Proof.
  intros Hk. unfold_script. destruct (m w); simpl; [apply Hk|done|done].
Qed.

End main_content.

(** *** The sidebar: when the session changes *)

Section sidebar.
Context `{env : Env}.

Lemma csv_upload_session ui w :
  session (final (csv_upload ui w)) =
  match uploaded_file ui with
  | Some file =>
      match load_csv file w with
      | Done (Some d) _ => mkSession (Some d) (Some "CSV") (Some (name file))
      | _ => session w
      end
  | None => session w
  end.
Proof.
  unfold csv_upload. destruct (uploaded_file ui) as [file|]; [|reflexivity].
  pose proof (keeps_load_csv file w) as Hk. unfold_script.
  destruct (load_csv file w) as [[d|] w'| |]; simpl in *; congruence.
Qed.

Lemma snowflake_session ui w :
  session (final (snowflake ui w)) =
  if execute_query ui then
    match load_snowflake_data (query ui)
            (show (st_info "Configure Snowflake credentials in `.streamlit/secrets.toml`") w) with
    | Done (Some d) _ =>
        mkSession (Some d) (Some "Snowflake") (uploaded_filename (session w))
    | _ => session w
    end
  else session w.
Proof.
  unfold snowflake. destruct (execute_query ui); [|reflexivity].
  match goal with |- context [load_snowflake_data ?q ?w0] =>
    pose proof (keeps_load_snowflake_data q w0) as Hk end.
  unfold_script. simpl in *.
  destruct (load_snowflake_data _ _) as [[d|] w'| |]; simpl in *; congruence.
Qed.

Lemma api_session ui w :
  session (final (api ui w)) =
  if fetch_data ui then
    match fetch_api_data (api_endpoint ui)
            (show (st_info "Provide a REST API endpoint that returns JSON") w) with
    | Done (Some d) _ =>
        mkSession (Some d) (Some "API") (uploaded_filename (session w))
    | _ => session w
    end
  else session w.
Proof.
  unfold api. destruct (fetch_data ui); [|reflexivity].
  match goal with |- context [fetch_api_data ?q ?w0] =>
    pose proof (keeps_fetch_api_data q w0) as Hk end.
  unfold_script. simpl in *.
  destruct (fetch_api_data _ _) as [[d|] w'| |]; simpl in *; congruence.
Qed.

Lemma app_session ui w :
  session (final (app ui w)) =
  session (final (match data_source_type ui with
                  | CSV_Upload => csv_upload ui
                  | Snowflake => snowflake ui
                  | API => api ui
                  end w)).
Proof.
  unfold app, sidebar.
  rewrite session_bind_keeps by (intros; apply keeps_main_content).
  apply session_bind_keeps. intros; apply keeps_dataset_info.
Qed.

(** C8: a run whose loader fails, by returning [None] or by raising, leaves
    the whole session as it was; and a run either leaves the session as it
    was, or its loader returned a table and the session now holds that table
    together with the name of its source. *)
Theorem failed_load_keeps_session (ui : widgets) (w : world) :
  (∀ load, requested_load ui = Some load → fails load →
           session (final (app ui w)) = session w) ∧
  (session (final (app ui w)) = session w ∨
   ∃ load d w0 w1,
     requested_load ui = Some load ∧ load w0 = Done (Some d) w1 ∧
     df (session (final (app ui w))) = Some d ∧
     data_source (session (final (app ui w)))
     = Some (source_name (data_source_type ui))).
Proof.
  assert (Hcases :
    session (final (app ui w)) = session w ∨
    ∃ load d w0 w1,
      requested_load ui = Some load ∧ load w0 = Done (Some d) w1 ∧
      df (session (final (app ui w))) = Some d ∧
      data_source (session (final (app ui w)))
      = Some (source_name (data_source_type ui))).
  { rewrite app_session. unfold requested_load.
    destruct (data_source_type ui).
    - rewrite csv_upload_session.
      destruct (uploaded_file ui) as [file|]; [|by left].
      destruct (load_csv file w) as [[d|] w'| |] eqn:E; try by left.
      right. by exists (load_csv file), d, w, w'.
    - rewrite snowflake_session.
      destruct (execute_query ui); [|by left].
      destruct (load_snowflake_data _ _) as [[d|] w'| |] eqn:E; try by left.
      right. by eexists _, d, _, w'.
    - rewrite api_session.
      destruct (fetch_data ui); [|by left].
      destruct (fetch_api_data _ _) as [[d|] w'| |] eqn:E; try by left.
      right. by eexists _, d, _, w'. }
  split; [|exact Hcases].
  intros load Hload Hfails.
  destruct Hcases as [?|(load' & d & w0 & w1 & Hload' & Hrun & _)]; [done|].
  rewrite Hload in Hload'. injection Hload' as <-. by destruct (Hfails w0 d w1).
Qed.

End sidebar.

(** A query that fails on a session holding an uploaded table: the session
    is as before. *)
Lemma failed_load_keeps_session_snowflake :
  let ui := snowflake_run "SELECT * FROM MY_TABLE LIMIT 1000" in
  let w := mkWorld (mkSession (Some example_table) (Some "CSV")
                      (Some "sales.csv")) [] in
  @requested_load sample_env ui = Some (@load_snowflake_data sample_env (query ui)) ∧
  fails (@load_snowflake_data sample_env (query ui)) ∧
  session (final (@app sample_env ui w)) = session w.
Proof.
  intros ui w.
  assert (Hfails : fails (@load_snowflake_data sample_env (query ui))).
  { intros w0 d w'. rewrite load_snowflake_data_run. discriminate. }
  split; [reflexivity|]. split; [exact Hfails|].
  exact (proj1 (@failed_load_keeps_session sample_env ui w)
           (@load_snowflake_data sample_env (query ui)) eq_refl Hfails).
Defined.

(** C4 fails after a file load.  A CSV upload stores the table, "CSV" and
    the file name.  A later fetch from the API stores the new table and
    "API" and leaves [uploaded_filename] alone: the session then holds the
    API table under the name of the uploaded file, and the sidebar shows
    that name for it. *)
Example api_load_keeps_uploaded_filename :
  let first := @app sample_env (csv_run (mkUploadedFile "sales.csv" example_csv))
                 initial_world in
  let fetch := api_run "https://api.example.com/data" in
  let api_table :=
    mkDataFrame [LStr "date"; LStr "category"; LStr "value"]
                [object_; object_; int64]
                [[PStr "2024-01-01"; PStr "A"; PInt 100];
                 [PStr "2024-01-02"; PStr "B"; PInt 150]] in
  session (final first)
  = mkSession (Some example_table) (Some "CSV") (Some "sales.csv") ∧
  session (final (@app sample_env fetch (rerun first)))
  = mkSession (Some api_table) (Some "API") (Some "sales.csv") ∧
  @sidebar sample_env fetch (rerun first)
  = Done ()
      (mkWorld (mkSession (Some api_table) (Some "API") (Some "sales.csv"))
         [st_info "Provide a REST API endpoint that returns JSON";
          st_success ":material/check_circle: Loaded 2 rows";
          st_metric "Rows" 2;
          st_metric "Columns" 3;
          st_caption "File: sales.csv"]).
Proof. vm_compute. repeat split; reflexivity. Qed.

(** *** The column classes *)

Lemma compress_sublist {A} (mask : list bool) (l : list A) :
  compress mask l `sublist_of` l.
Proof.
  revert l. induction mask as [|b mask IH]; intros [|x l]; simpl;
    try apply sublist_nil_l.
  destruct b; [by apply sublist_skip|by apply sublist_cons].
Qed.

Lemma elem_of_compress {A} (mask : list bool) (l : list A) x :
  x ∈ compress mask l ↔ ∃ j, l !! j = Some x ∧ mask !! j = Some true.
Proof.
  revert l. induction mask as [|b mask IH]; intros [|y l]; simpl.
  - split; [intros H; inversion H|intros (j & ? & ?); done].
  - split; [intros H; inversion H|intros (j & ? & ?); done].
  - split; [intros H; inversion H|intros (j & ? & ?); done].
  - destruct b.
    + rewrite elem_of_cons, IH. split.
      * intros [->|(j & ? & ?)]; [by exists 0|by exists (S j)].
      * intros ([|j] & Hl & Hm); simpl in *; [left; congruence|right; eauto].
    + rewrite IH. split.
      * intros (j & ? & ?). by exists (S j).
      * intros ([|j] & Hl & Hm); simpl in *; [congruence|eauto].
Qed.

(** A label is selected exactly when some column carrying it has one of the
    dtypes asked for. *)
Lemma elem_of_select_dtypes include d c :
  c ∈ columns (select_dtypes include d) ↔
  ∃ j t, columns d !! j = Some c ∧ dtypes d !! j = Some t ∧ t ∈ include.
Proof.
  unfold select_dtypes; simpl. rewrite elem_of_compress. split.
  - intros (j & Hc & Hm). rewrite list_lookup_fmap in Hm.
    destruct (dtypes d !! j) as [t|] eqn:Et; [|done].
    injection Hm as Hm. apply bool_decide_eq_true in Hm. eauto.
  - intros (j & t & Hc & Ht & Hin). exists j. split; [done|].
    rewrite list_lookup_fmap, Ht. simpl. f_equal. by apply bool_decide_eq_true.
Qed.

(** Both classes keep the order of the table's columns. *)
Lemma column_classes_sublist d :
  get_numeric_columns d `sublist_of` columns d ∧
  get_categorical_columns d `sublist_of` columns d.
Proof. split; apply compress_sublist. Qed.

(** With pairwise distinct labels no label is in both classes. *)
Lemma column_classes_disjoint d c :
  NoDup (columns d) →
  c ∈ get_numeric_columns d → c ∈ get_categorical_columns d → False.
Proof.
  intros Hnd Hn Hc. unfold get_numeric_columns, get_categorical_columns in *.
  apply elem_of_select_dtypes in Hn as (j & t & Hj & Ht & Hin).
  apply elem_of_select_dtypes in Hc as (j' & t' & Hj' & Ht' & Hin').
  assert (j = j') as <- by (eapply NoDup_lookup; eauto).
  assert (t = t') as <- by congruence.
  apply (bool_decide_eq_true_2 _) in Hin. apply (bool_decide_eq_true_2 _) in Hin'.
  destruct t; vm_compute in Hin, Hin'; discriminate.
Qed.

(** int64, int32, float64 and float32 columns are numeric; object, category
    and string columns are categorical. *)
Lemma column_classes_complete d j c t :
  columns d !! j = Some c → dtypes d !! j = Some t →
  (t ∈ [int64; float64; int32; float32] → c ∈ get_numeric_columns d) ∧
  (is_string_or_category_dtype t = true → c ∈ get_categorical_columns d).
Proof.
  intros Hc Ht. split; intros H; apply elem_of_select_dtypes; exists j, t.
  - done.
  - split_and!; [done..|].
    destruct t; try discriminate; by apply (bool_decide_eq_true_1 _).
Qed.

(** C6 fails on integer and float columns of other widths.  In a table with
    an int16 column, a uint64 column, a float16 column and a float64 column,
    only the last is in the numeric class, and the first three are in no
    class. *)
Example narrow_integer_column_is_not_numeric :
  let d := mkDataFrame
             [LStr "qty"; LStr "id"; LStr "ratio"; LStr "price"]
             [int16; uint64; float16; float64]
             [[PInt 3; PInt 18446744073709551615; PFloat 4602678819172646912;
               PFloat 4621819117588971520]] in
  is_integer_dtype int16 = true ∧ is_integer_dtype uint64 = true ∧
  is_float_dtype float16 = true ∧
  get_numeric_columns d = [LStr "price"] ∧
  get_categorical_columns d = [].
Proof. repeat split; reflexivity. Qed.

(** *** The charts tab *)

Section charts.
Context `{env : Env}.

(** C9: on a table without numeric columns the charts tab shows the warning
    and stops the run there, whatever the chart type and the selections; the
    page gets no chart and plotly is not consulted. *)
Theorem charts_tab_refuses_without_numeric_columns (ui : widgets) (d : DataFrame) (w : world) :
  get_numeric_columns d = [] →
  charts_tab ui d w
  = Stopped (show (st_warning "No numeric columns found for visualization") w).
Proof. intros Hnone. unfold charts_tab. rewrite Hnone. reflexivity. Qed.

(** With a numeric column the tab goes on to plotly: the chart is shown, or
    plotly's exception is reported. *)
Lemma charts_tab_draws (ui : widgets) (d : DataFrame) (w : world) :
  get_numeric_columns d ≠ [] →
  charts_tab ui d w =
  match px_raises (chart_of ui d) with
  | None => Done () (show (st_plotly_chart (chart_of ui d)) w)
  | Some msg => Done () (show (st_error ("Error generating chart: " +:+ msg)) w)
  end.
Proof.
  intros Hsome. unfold charts_tab.
  rewrite bool_decide_eq_false_2 by (by destruct (get_numeric_columns d)).
  unfold px. unfold_script. by destruct (px_raises (chart_of ui d)).
Qed.

End charts.

(** A table of text columns only: a histogram is refused like any other
    chart. *)
Lemma charts_tab_refuses_text_table :
  let d := mkDataFrame [LStr "date"; LStr "category"] [object_; object_]
             [[PStr "2024-01-01"; PStr "A"]] in
  let ui := {| data_source_type := CSV_Upload; uploaded_file := None;
               query := ""; execute_query := false;
               api_endpoint := ""; fetch_data := false;
               chart_type := Histogram;
               pick_x := 1; pick_y := 0; pick_color := 2;
               pick_filter := 0; pick_values := [];
               now := "20240101_120000" |} in
  get_numeric_columns d = [] ∧
  @charts_tab sample_env ui d initial_world
  = Stopped (mkWorld initial_session
               [st_warning "No numeric columns found for visualization"]).
Proof.
  intros d ui. split; [reflexivity|].
  exact (@charts_tab_refuses_without_numeric_columns sample_env ui d
           initial_world eq_refl).
Defined.

(** *** The missing-value report *)

Lemma isnull_sum_lookup d j c n :
  isnull_sum d !! j = Some (c, n) ↔
  columns d !! j = Some c ∧ n = nulls (column_at d j).
Proof.
  unfold isnull_sum, nulls. rewrite list_lookup_imap.
  destruct (columns d !! j) as [c'|]; simpl.
  - split; [intros [= <- <-]; done|intros [[= <-] ->]; done].
  - split; [discriminate|intros [? _]; discriminate].
Qed.

Lemma isnull_sum_counts d :
  (isnull_sum d).*2 = (λ j, nulls (column_at d j)) <$> seq 0 (length (columns d)).
Proof.
  apply list_eq. intros j. unfold isnull_sum.
  rewrite !list_lookup_fmap, list_lookup_imap.
  destruct (columns d !! j) as [c|] eqn:E; simpl.
  - apply lookup_lt_Some in E. by rewrite lookup_seq_lt.
  - apply lookup_ge_None in E. by rewrite lookup_seq_ge.
Qed.

Lemma nulls_positive cells :
  0 < nulls cells ↔ ∃ v, v ∈ cells ∧ isnull v = true.
Proof.
  unfold nulls. split.
  - intros H. destruct (filter _ cells) as [|v l] eqn:E; [simpl in H; lia|].
    exists v. assert (Hv : v ∈ filter (λ v, isnull v = true) cells)
      by (rewrite E; left).
    apply list_elem_of_filter in Hv as [? ?]. done.
  - intros (v & Hv & Hnull).
    assert (Hin : v ∈ filter (λ v, isnull v = true) cells)
      by (by apply list_elem_of_filter).
    destruct (filter _ cells); [inversion Hin|simpl; lia].
Qed.

(** Dropping the zero counts does not change the total. *)
Lemma sum_positive_counts (l : list (label * nat)) :
  sum_list (filter (λ r, 0 < r.2) l).*2 = sum_list l.*2.
Proof.
  induction l as [|[c n] l IH]; [done|].
  rewrite filter_cons. case_decide; csimpl in *; rewrite IH; lia.
Qed.

Lemma sum_list_fmap_add {A} (f g : A → nat) (l : list A) :
  sum_list ((λ x, f x + g x) <$> l) = sum_list (f <$> l) + sum_list (g <$> l).
Proof. induction l; csimpl; lia. Qed.

(** The missing cells of one row, counted position by position. *)
Lemma row_nulls (row : list pyval) k :
  sum_list ((λ j, nulls [default PNone (row !! (j - k))]) <$> seq k (length row))
  = nulls row.
Proof.
  revert k. induction row as [|v row IH]; intros k; [done|].
  csimpl. rewrite Nat.sub_diag. csimpl.
  rewrite (list_fmap_ext _ (λ j, nulls [default PNone (row !! (j - S k))])).
  - rewrite IH. unfold nulls. rewrite !filter_cons, filter_nil.
    case_decide; simpl; lia.
  - intros i j Hj. apply lookup_seq in Hj as [-> _].
    by replace (S k + i - k) with (S (S k + i - S k)) by lia.
Qed.

(** Counting by column or cell by cell gives the same number. *)
Lemma column_counts_total (rows : list (list pyval)) n :
  Forall (λ row, length row = n) rows →
  sum_list ((λ j, nulls ((λ row, default PNone (row !! j)) <$> rows)) <$> seq 0 n)
  = nulls (concat rows).
Proof.
  induction 1 as [|row rows Hrow _ IH].
  - csimpl. induction (seq 0 n) as [|j l IHl]; csimpl; [done|]. by rewrite IHl.
  - csimpl. unfold nulls at 2. rewrite filter_app, length_app.
    fold (nulls row) (nulls (concat rows)). rewrite <- IH, <- (row_nulls row 0).
    rewrite Hrow, <- sum_list_fmap_add. f_equal. apply list_fmap_ext.
    intros i j _. rewrite Nat.sub_0_r. unfold nulls. rewrite !filter_cons.
    rewrite filter_nil. case_decide; simpl; lia.
Qed.

(** C7: the report has a row for exactly the columns with at least one
    missing cell, each with the number of its missing cells; the counts of
    the report add up to the number of missing cells of the table; a table
    without missing cells gets the message "No missing values found!", and
    any other table gets the report, which then is not empty. *)
Theorem missing_values_report (d : DataFrame) (w : world) :
  wf_DataFrame d →
  (∀ c n, (c, n) ∈ missing_df d ↔
          ∃ j, columns d !! j = Some c ∧ n = nulls (column_at d j) ∧
               ∃ v, v ∈ column_at d j ∧ isnull v = true) ∧
  sum_list (missing_df d).*2 = null_count d ∧
  (null_count d = 0 →
   missing_values d w
   = Done () (show (st_success ":material/check_circle: No missing values found!") w)) ∧
  (null_count d ≠ 0 →
   missing_df d ≠ [] ∧
   missing_values d w
   = Done () (show (st_dataframe (missing_report (missing_df d))) w)).
Proof.
  intros [_ Hrows].
  assert (Hsum : sum_list (missing_df d).*2 = null_count d).
  { unfold missing_df. rewrite sum_positive_counts, isnull_sum_counts.
    by apply column_counts_total. }
  assert (Hempty : missing_df d = [] ↔ null_count d = 0).
  { rewrite <- Hsum. split; [by intros ->|].
    intros Hzero. destruct (missing_df d) as [|[c n] l] eqn:E; [done|].
    assert (Hin : (c, n) ∈ missing_df d) by (rewrite E; left).
    apply list_elem_of_filter in Hin as [Hpos _]. simpl in *. lia. }
  split; [|split; [exact Hsum|split]].
  - intros c n. unfold missing_df. rewrite list_elem_of_filter. simpl.
    rewrite list_elem_of_lookup. setoid_rewrite isnull_sum_lookup. split.
    + intros (Hpos & j & Hc & ->). exists j. split_and!; [done..|].
      by apply nulls_positive.
    + intros (j & Hc & -> & Hv). split; [by apply nulls_positive|by exists j].
  - intros Hzero. apply Hempty in Hzero. unfold missing_values.
    by rewrite Hzero.
  - intros Hsome. assert (Hne : missing_df d ≠ []) by (by rewrite Hempty).
    split; [exact Hne|]. unfold missing_values.
    rewrite bool_decide_eq_true_2; [done|].
    destruct (missing_df d); [done|simpl; lia].
Qed.

(** A table with two missing cells in one column and none in the other. *)
Lemma missing_values_report_example :
  let d := mkDataFrame [LStr "category"; LStr "value"] [object_; float64]
             [[PStr "A"; PNone]; [PStr "B"; PInt 150]; [PStr "A"; PNone]] in
  wf_DataFrame d ∧
  missing_df d = [(LStr "value", 2)] ∧
  sum_list (missing_df d).*2 = null_count d ∧
  null_count d = 2.
Proof.
  intros d.
  assert (Hwf : wf_DataFrame d).
  { split; [reflexivity|]. repeat constructor. }
  split; [exact Hwf|]. split; [reflexivity|].
  split; [|reflexivity].
  exact (proj1 (proj2 (missing_values_report d initial_world Hwf))).
Defined.

(** *** The export tab *)

(** A boolean mask computed row by row selects like a filter. *)
Lemma compress_isin (rows : list (list pyval)) (j : nat) (selected : list pyval) :
  compress (isin ((λ row, default PNone (row !! j)) <$> rows) selected) rows
  = filter (λ row, py_in (default PNone (row !! j)) selected) rows.
Proof.
  induction rows as [|row rows IH]; [done|].
  unfold isin in *. csimpl. rewrite filter_cons, IH.
  destruct (decide (py_in (default PNone (row !! j)) selected)) as [Hx|Hx].
  - by rewrite bool_decide_eq_true_2.
  - by rewrite bool_decide_eq_false_2.
Qed.

Section export.
Context `{env : Env}.

(** C10: the export tab, with its CSV, Excel and filtered CSV downloads,
    leaves the session as it found it, and so does the whole main content.
    The filtered table is a new table with the columns and dtypes of the
    current one whose rows are, in order, exactly the rows of the current
    table whose cell in the filter column is one of the selected values, as
    pandas compares values.  That table, filtered on the column chosen in
    the select box by the values chosen in the multiselect, is what the
    export options count and offer for download. *)
Theorem export_leaves_table (ui : widgets) (d : DataFrame) (w : world) :
  session (final (export_tab ui d w)) = session w ∧
  session (final (main_content ui w)) = session w ∧
  (∀ j selected_values,
    let filtered := filtered_df d (column_at d j) selected_values in
    columns filtered = columns d ∧
    dtypes filtered = dtypes d ∧
    values filtered
    = filter (λ row, py_in (default PNone (row !! j)) selected_values) (values d) ∧
    ∀ row, row ∈ values filtered ↔
           row ∈ values d ∧ py_in (default PNone (row !! j)) selected_values) ∧
  (∀ filter_col j,
    selectbox (get_categorical_columns d) (pick_filter ui) = Some filter_col →
    get_loc d filter_col = [j] →
    forallb hashable (column_at d j) = true →
    let selected_values := multiselect (unique (column_at d j)) (pick_values ui) in
    let filtered := filtered_df d (column_at d j) selected_values in
    selected_values ≠ [] →
    export_options ui d w
    = Done () (show (st_download_button (to_csv filtered)
                       ("dashboard_filtered_" +:+ now ui +:+ ".csv"))
                 (show (st_metric "Filtered Rows" (len filtered)) w))).
Proof.
  split; [apply keeps_export_tab|]. split; [apply keeps_main_content|]. split.
  - intros j selected_values filtered.
    assert (Hvalues : values filtered
      = filter (λ row, py_in (default PNone (row !! j)) selected_values)
          (values d)).
    { unfold filtered, filtered_df, getitem_mask, column_at. simpl.
      apply compress_isin. }
    split; [reflexivity|]. split; [reflexivity|]. split; [exact Hvalues|].
    intros row. rewrite Hvalues, list_elem_of_filter. tauto.
  - intros filter_col j Hbox Hloc Hhash selected_values filtered Hsel.
    unfold export_options. rewrite Hbox.
    rewrite bool_decide_eq_true_2.
    2:{ destruct (get_categorical_columns d); [discriminate|simpl; lia]. }
    unfold filter_column. rewrite Hloc, Hhash. unfold_script. simpl.
    fold selected_values. by rewrite bool_decide_eq_true_2.
Qed.

(** What the export options put on the page once a filter column and some
    of its values are chosen. *)
Lemma export_options_run (ui : widgets) (d : DataFrame) (w : world) filter_col j :
  selectbox (get_categorical_columns d) (pick_filter ui) = Some filter_col →
  get_loc d filter_col = [j] →
  forallb hashable (column_at d j) = true →
  let selected_values := multiselect (unique (column_at d j)) (pick_values ui) in
  let filtered := filtered_df d (column_at d j) selected_values in
  selected_values ≠ [] →
  export_options ui d w
  = Done () (show (st_download_button (to_csv filtered)
                     ("dashboard_filtered_" +:+ now ui +:+ ".csv"))
               (show (st_metric "Filtered Rows" (len filtered)) w)).
Proof.
  intros Hbox Hloc Hhash selected_values filtered Hsel. unfold export_options.
  rewrite Hbox.
  rewrite bool_decide_eq_true_2.
  2:{ destruct (get_categorical_columns d); [discriminate|simpl; lia]. }
  unfold filter_column. rewrite Hloc, Hhash. unfold_script. simpl.
  fold selected_values. by rewrite bool_decide_eq_true_2.
Qed.

End export.

(** Filtering the table of the start page on category A keeps its first and
    third row. *)
Example export_filter_category_A :
  let ui := {| data_source_type := CSV_Upload; uploaded_file := None;
               query := ""; execute_query := false;
               api_endpoint := ""; fetch_data := false;
               chart_type := BarChart;
               pick_x := 0; pick_y := 0; pick_color := 0;
               pick_filter := 1; pick_values := [0];
               now := "20240101_120000" |} in
  let filtered :=
    mkDataFrame (columns example_table) (dtypes example_table)
      [[PStr "2024-01-01"; PStr "A"; PInt 100; PInt 5];
       [PStr "2024-01-03"; PStr "A"; PInt 120; PInt 6]] in
  export_options ui example_table initial_world
  = Done () (mkWorld initial_session
               [st_metric "Filtered Rows" 2;
                st_download_button (to_csv filtered)
                  "dashboard_filtered_20240101_120000.csv"]).
Proof. vm_compute. reflexivity. Qed.

(** ** Further properties *)

(** *** Tables built from records *)

Lemma first_by_key {A K} `{EqDecision K} (f : A → K) (l : list A) x :
  x ∈ l → f x ∈ f <$> first_by f l.
Proof.
  induction l as [|v l IH]; intros Hx; [inversion Hx|]. simpl.
  destruct (decide (f x = f v)) as [->|Hne]; [left|].
  right. apply elem_of_cons in Hx as [->|Hx]; [done|].
  apply list_elem_of_fmap in IH as (u & Hu & Hin); [|done].
  apply list_elem_of_fmap. exists u. split; [done|].
  apply list_elem_of_filter. split; [congruence|done].
Qed.

Lemma NoDup_first_by {A K} `{EqDecision K} (f : A → K) (l : list A) :
  NoDup (f <$> first_by f l).
Proof.
  induction l as [|v l IH]; simpl; constructor.
  - rewrite list_elem_of_fmap. intros (u & Hu & Hin).
    apply list_elem_of_filter in Hin as [Hne _]. done.
  - eapply sublist_NoDup; [exact IH|]. apply fmap_sublist, sublist_filter.
Qed.

Section records.
Context `{env : Env}.

(** A list of records always gives a rectangular table whose column labels
    are pairwise distinct, with one dtype per column; so does the API loader
    on a body that is a list of records. *)
Theorem from_records_well_formed (recs : list dict) :
  wf_DataFrame (from_records recs) ∧
  NoDup (columns (from_records recs)) ∧
  normalize (PList (PDict <$> recs)) = Returned (from_records recs).
Proof.
  split; [split|split].
  - unfold from_records; simpl. by rewrite !length_fmap.
  - unfold from_records; simpl. apply Forall_fmap, Forall_forall.
    intros r _. simpl. by rewrite !length_fmap.
  - unfold from_records; simpl. apply NoDup_fmap_2.
    + intros k1 k2 [= ->]. done.
    + apply (NoDup_fmap_1 id), NoDup_first_by.
  - apply pd_DataFrame_records.
Qed.

End records.

(** *** The interactions of the sidebar *)

Section interactions.
Context `{env : Env}.

Lemma snowflake_run_eq ui w :
  snowflake ui w =
  let w0 := show (st_info "Configure Snowflake credentials in `.streamlit/secrets.toml`") w in
  if execute_query ui then
    match snowpark_to_pandas (query ui) with
    | Returned d =>
        Done () (show (loaded d)
                   (mkWorld (loaded_from "Snowflake" d (session w)) (page w0)))
    | Raised e =>
        Done () (show (st_error ("Snowflake connection error: " +:+ str e)) w0)
    end
  else Done () w0.
Proof.
  unfold snowflake. unfold_script. simpl.
  destruct (execute_query ui); simpl; [|reflexivity].
  fold (show (st_info "Configure Snowflake credentials in `.streamlit/secrets.toml`") w).
  rewrite load_snowflake_data_run.
  destruct (snowpark_to_pandas (query ui)); reflexivity.
Qed.

Lemma api_run_eq ui w :
  api ui w =
  let w0 := show (st_info "Provide a REST API endpoint that returns JSON") w in
  if fetch_data ui then
    match fetched (api_endpoint ui) with
    | Returned d =>
        Done () (show (loaded d)
                   (mkWorld (loaded_from "API" d (session w)) (page w0)))
    | Raised (Timeout _) =>
        Done () (show (st_error "API request timed out. Please try again.") w0)
    | Raised (RequestException m) =>
        Done () (show (st_error ("API error: " +:+ m)) w0)
    | Raised (Exception m) => Uncaught (Exception m) w0
    end
  else Done () w0.
Proof.
  unfold api, fetched. unfold_script. simpl.
  destruct (fetch_data ui); simpl; [|reflexivity].
  fold (show (st_info "Provide a REST API endpoint that returns JSON") w).
  rewrite fetch_api_data_run.
  destruct (requests_get_json (api_endpoint ui)) as [data|[]]; simpl;
    try reflexivity.
  destruct (normalize data) as [d|[]]; reflexivity.
Qed.

(** A warehouse query always completes the interaction.  When connecting or
    querying raises, the page gets the message "Snowflake connection
    error: " followed by the exception's text and the session stays as it
    was; when the query returns a table, the table and "Snowflake" are
    stored and the row count is announced. *)
Theorem snowflake_interaction_completes (ui : widgets) (w : world) :
  execute_query ui = true →
  let w0 := show (st_info "Configure Snowflake credentials in `.streamlit/secrets.toml`") w in
  (∀ e, snowpark_to_pandas (query ui) = Raised e →
        snowflake ui w
        = Done () (show (st_error ("Snowflake connection error: " +:+ str e)) w0)) ∧
  (∀ d, snowpark_to_pandas (query ui) = Returned d →
        snowflake ui w
        = Done () (mkWorld (loaded_from "Snowflake" d (session w))
                     (page w0 ++ [st_success (":material/check_circle: Loaded "
                                              +:+ pretty (len d) +:+ " rows")]))).
Proof.
  intros Hpress w0. rewrite snowflake_run_eq, Hpress.
  split; intros x Hx; simpl; by rewrite Hx.
Qed.

(** The API loader's failures, as the interaction shows them.  A timeout
    gives the fixed message "API request timed out. Please try again."; any
    other exception of [requests] gives "API error: " and its text; in both
    cases the interaction completes and the session stays as it was.  Any
    other exception, such as one raised while building the table from the
    body, is not caught and ends the run. *)
Theorem api_failures (ui : widgets) (w : world) :
  fetch_data ui = true →
  let w0 := show (st_info "Provide a REST API endpoint that returns JSON") w in
  (∀ m, fetched (api_endpoint ui) = Raised (Timeout m) →
        api ui w
        = Done () (show (st_error "API request timed out. Please try again.") w0)) ∧
  (∀ m, fetched (api_endpoint ui) = Raised (RequestException m) →
        api ui w = Done () (show (st_error ("API error: " +:+ m)) w0)) ∧
  (∀ m, fetched (api_endpoint ui) = Raised (Exception m) →
        api ui w = Uncaught (Exception m) w0).
Proof.
  intros Hpress w0. rewrite api_run_eq, Hpress.
  split_and!; intros m Hm; simpl; by rewrite Hm.
Qed.

End interactions.

(** The warehouse of the sample environment refuses the connection. *)
Lemma snowflake_interaction_completes_refused :
  let ui := snowflake_run "SELECT 1" in
  execute_query ui = true ∧
  @snowflake sample_env ui initial_world
  = Done () (mkWorld initial_session
               [st_info "Configure Snowflake credentials in `.streamlit/secrets.toml`";
                st_error "Snowflake connection error: Failed to connect to DB"]).
Proof.
  intros ui. split; [reflexivity|].
  exact (proj1 (@snowflake_interaction_completes sample_env ui initial_world
                  eq_refl) _ eq_refl).
Defined.

(** The slow endpoint of the sample environment times out. *)
Lemma api_failures_timeout :
  let ui := api_run "https://api.example.com/slow" in
  fetch_data ui = true ∧
  @api sample_env ui initial_world
  = Done () (mkWorld initial_session
               [st_info "Provide a REST API endpoint that returns JSON";
                st_error "API request timed out. Please try again."]).
Proof.
  intros ui. split; [reflexivity|].
  exact (proj1 (@api_failures sample_env ui initial_world eq_refl) _ eq_refl).
Defined.

(** *** The gates of the main content *)

Section gates.
Context `{env : Env}.

Lemma dataset_info_run w :
  dataset_info w
  = Done () (mkWorld (session w) (page w ++ dataset_info_elements (session w))).
Proof.
  unfold dataset_info, dataset_info_elements. unfold_script. simpl.
  destruct w as [[[d|] src fname] pg]; simpl; [|by rewrite app_nil_r].
  destruct fname as [f|]; simpl.
  - destruct (bool_decide (f ≠ "")); unfold ret; simpl;
      by rewrite <- !app_assoc.
  - by rewrite <- !app_assoc.
Qed.

Lemma main_content_stops_on_empty (ui : widgets) (w : world) d :
  df (session w) = Some d → empty d = true →
  main_content ui w
  = Stopped (show (st_error ":material/error: No data loaded") w).
Proof.
  intros Hd Hempty. unfold main_content, validate_dataframe.
  unfold_script. rewrite Hd. simpl. by rewrite Hempty.
Qed.

(** Without a usable table the main content shows one message and stops:
    the prompt to pick a source when no table is stored, "No data loaded"
    when the stored table has no row or no column.  No tab is rendered and
    the footer is not reached. *)
Theorem main_content_needs_a_table (ui : widgets) (w : world) :
  (df (session w) = None →
   main_content ui w
   = Stopped (show (st_info ":material/arrow_back: Please select a data source from the sidebar to get started") w)) ∧
  (∀ d, df (session w) = Some d → empty d = true →
   main_content ui w
   = Stopped (show (st_error ":material/error: No data loaded") w)).
Proof.
  split.
  - intros Hnone. unfold main_content. unfold_script. by rewrite Hnone.
  - intros d. apply main_content_stops_on_empty.
Qed.

(** A table with rows and columns but no numeric column, when
    [st.dataframe] can display it, gets its data tab and the warning of the
    charts tab, and there the run stops: neither the statistics and the
    missing-value report nor any download button nor the footer is shown.
    When [st.dataframe] raises on the table, the run ends on that exception
    with nothing shown. *)
Theorem no_numeric_column_ends_the_render (ui : widgets) (w : world) (d : DataFrame) :
  df (session w) = Some d → empty d = false → get_numeric_columns d = [] →
  match st_dataframe_raises d with
  | None =>
      main_content ui w
      = Stopped (mkWorld (session w)
                   (page w ++ data_tab_elements d ++
                    [st_warning "No numeric columns found for visualization"]))
  | Some msg => main_content ui w = Uncaught (Exception msg) w
  end.
Proof.
  intros Hd Hempty Hnone.
  assert (Hrows : ¬ (len d < 1)).
  { apply not_true_iff_false in Hempty. rewrite empty_spec in Hempty. lia. }
  unfold main_content, validate_dataframe, charts_tab, data_tab.
  unfold_script. rewrite Hd. simpl. rewrite Hempty.
  rewrite bool_decide_eq_false_2 by done. simpl.
  destruct (st_dataframe_raises d) as [msg|]; [reflexivity|]. simpl.
  rewrite (bool_decide_eq_true_2 (length (get_numeric_columns d) = 0))
    by (by rewrite Hnone).
  unfold data_tab_elements. simpl. by rewrite <- !app_assoc.
Qed.

(** A load that succeeds with a table without rows or without columns, such
    as the API's on the body [{}] or [[]], replaces the stored table
    all the same: the sidebar announces the loaded rows, and the main
    content then stops on "No data loaded". *)
Theorem empty_api_table_is_stored (ui : widgets) (w : world) (d : DataFrame) :
  data_source_type ui = API → fetch_data ui = true →
  fetched (api_endpoint ui) = Returned d → empty d = true →
  ∃ w', app ui w = Stopped w' ∧
        session w' = loaded_from "API" d (session w) ∧
        loaded d ∈ page w' ∧
        last (page w') = Some (st_error ":material/error: No data loaded").
Proof.
  intros Hkind Hpress Hfetched Hempty.
  unfold app, sidebar. rewrite Hkind.
  unfold mbind, script_bind, bind.
  rewrite api_run_eq, Hpress. simpl. rewrite Hfetched.
  rewrite dataset_info_run. simpl.
  match goal with |- context [main_content ui ?w1] =>
    rewrite (main_content_stops_on_empty ui w1 d eq_refl Hempty)
  end.
  eexists. split; [reflexivity|]. simpl. split; [reflexivity|]. split.
  - rewrite !elem_of_app. left. left. right. left.
  - apply last_snoc.
Qed.

End gates.

(** The table of the start page without its two numeric columns. *)
Lemma no_numeric_column_ends_the_render_example :
  let d := mkDataFrame [LStr "date"; LStr "category"] [object_; object_]
             [[PStr "2024-01-01"; PStr "A"]; [PStr "2024-01-02"; PStr "B"]] in
  let w := mkWorld (mkSession (Some d) (Some "CSV") (Some "sales.csv")) [] in
  df (session w) = Some d ∧ empty d = false ∧ get_numeric_columns d = [] ∧
  @main_content sample_env default_widgets w
  = Stopped (mkWorld (session w)
               [st_dataframe (whole d);
                st_metric "Total Rows" 2;
                st_metric "Total Columns" 2;
                st_metric "Numeric Columns" 0;
                st_metric "Categorical Columns" 2;
                st_warning "No numeric columns found for visualization"]).
Proof.
  intros d w. split_and!; [reflexivity..|].
  exact (@no_numeric_column_ends_the_render sample_env default_widgets w d
           eq_refl eq_refl eq_refl).
Defined.

(** A fresh session, and a session holding the frame of the body [{}]. *)
Lemma main_content_needs_a_table_example :
  let d := mkDataFrame [] [] [[]] in
  let w := mkWorld (mkSession (Some d) (Some "API") None) [] in
  @main_content sample_env default_widgets initial_world
  = Stopped (mkWorld initial_session
               [st_info ":material/arrow_back: Please select a data source from the sidebar to get started"]) ∧
  @main_content sample_env default_widgets w
  = Stopped (mkWorld (session w) [st_error ":material/error: No data loaded"]).
Proof.
  intros d w. split.
  - exact (proj1 (@main_content_needs_a_table sample_env default_widgets
                    initial_world) eq_refl).
  - exact (proj2 (@main_content_needs_a_table sample_env default_widgets w)
             d eq_refl eq_refl).
Defined.

(** The endpoint that answers [{}]: one row is announced, and the render
    stops on "No data loaded". *)
Lemma empty_api_table_is_stored_example :
  let ui := api_run "https://api.example.com/empty" in
  let d := mkDataFrame [] [] [[]] in
  @fetched sample_env (api_endpoint ui) = Returned d ∧ empty d = true ∧
  ∃ w', @app sample_env ui initial_world = Stopped w' ∧
        session w' = mkSession (Some d) (Some "API") None ∧
        st_success ":material/check_circle: Loaded 1 rows" ∈ page w' ∧
        last (page w') = Some (st_error ":material/error: No data loaded").
Proof.
  intros ui d. split; [reflexivity|]. split; [reflexivity|].
  exact (@empty_api_table_is_stored sample_env ui initial_world d
           eq_refl eq_refl eq_refl eq_refl).
Defined.

(** *** Runs of the whole script *)

Section runs.
Context `{env : Env}.

(** When the sidebar completes, its Dataset Info block describes the table
    that is stored now: the page ends with the row and column counts of that
    table, followed by the caption "File: " and the stored file name
    exactly when a non-empty file name is stored. *)
Theorem sidebar_reports_the_stored_table (ui : widgets) (w w' : world) (d : DataFrame) :
  sidebar ui w = Done () w' → df (session w') = Some d →
  ∃ before : list element,
    page w' = (before ++ [st_metric "Rows" (len d);
                          st_metric "Columns" (length (columns d))] ++
               match uploaded_filename (session w') with
               | Some f => if bool_decide (f ≠ "")
                           then [st_caption ("File: " +:+ f)] else []
               | None => []
               end)%list.
Proof.
  unfold sidebar. unfold mbind, script_bind, bind.
  destruct (match data_source_type ui with
            | CSV_Upload => csv_upload ui
            | Snowflake => snowflake ui
            | API => api ui
            end w) as [[] w1| |]; [|discriminate..].
  rewrite dataset_info_run. intros [= <-]. simpl. intros Hd.
  exists (page w1). unfold dataset_info_elements. by rewrite Hd.
Qed.

(** Repeating a run with the same widget values leaves the session the
    first run left: the session after a run is a function of the inputs and
    of the file name stored before. *)
Theorem rerun_is_idempotent (ui : widgets) (w : world) :
  session (final (app ui (rerun (app ui w)))) = session (final (app ui w)).
Proof.
  rewrite !app_session. unfold rerun. rewrite app_session.
  destruct (data_source_type ui).
  - rewrite !csv_upload_session.
    destruct (uploaded_file ui) as [file|]; [|reflexivity].
    rewrite !load_csv_run. destruct (read_csv file); reflexivity.
  - rewrite !snowflake_session.
    destruct (execute_query ui); [|reflexivity].
    rewrite !load_snowflake_data_run.
    destruct (snowpark_to_pandas (query ui)); reflexivity.
  - rewrite !api_session.
    destruct (fetch_data ui); [|reflexivity].
    rewrite !fetch_api_data_run.
    destruct (requests_get_json (api_endpoint ui)) as [data|[]]; simpl;
      try reflexivity.
    destruct (normalize data) as [d|[]]; reflexivity.
Qed.

End runs.

(** The upload of the start page: the sidebar ends with its counts and its
    file name. *)
Lemma sidebar_reports_the_stored_table_example :
  let ui := csv_run (mkUploadedFile "sales.csv" example_csv) in
  ∃ w', @sidebar sample_env ui initial_world = Done () w' ∧
        df (session w') = Some example_table ∧
        ∃ before : list element,
          page w' = (before ++ [st_metric "Rows" 3; st_metric "Columns" 4;
                                st_caption "File: sales.csv"])%list.
Proof.
  intros ui. eexists. split; [reflexivity|]. split; [reflexivity|].
  exact (@sidebar_reports_the_stored_table sample_env ui initial_world _
           example_table eq_refl eq_refl).
Defined.

(** *** The selections of a chart *)

Lemma selectbox_elem_of {A} (options : list A) i x :
  selectbox options i = Some x → x ∈ options.
Proof.
  unfold selectbox. destruct (options !! i) as [y|] eqn:E.
  - intros [= <-]. by eapply list_elem_of_lookup_2.
  - destruct options; [discriminate|]. intros [= <-]. left.
Qed.

Lemma selectbox_is_Some {A} (options : list A) i :
  options ≠ [] → is_Some (selectbox options i).
Proof.
  unfold selectbox. destruct (options !! i); [eauto|].
  destruct options; [done|eauto].
Qed.

Lemma selectbox_optional_elem_of {A} (options : list A) i x :
  selectbox_optional options i = Some x → x ∈ options.
Proof.
  unfold selectbox_optional.
  destruct (selectbox (None :: (Some <$> options)) i) as [[y|]|] eqn:E;
    simpl; [|discriminate..].
  intros [= <-]. apply selectbox_elem_of in E.
  apply elem_of_cons in E as [?|E]; [discriminate|].
  apply list_elem_of_fmap in E as (z & [= ->] & ?). done.
Qed.

(** Whatever is picked in the select boxes, the call made to plotly keeps to
    the role domains of the chart type: the y column is numeric (and there
    is none for a histogram), the colour column is categorical (and there is
    none for a box plot), and the x column is any column for bar and line
    charts, numeric for scatter plots and histograms, categorical for box
    plots.  On a table with numeric columns every chart but the histogram
    has its y column, and scatter plots and histograms have their x. *)
Theorem chart_roles_in_domain (ui : widgets) (d : DataFrame) :
  let fig := chart_of ui d in
  fig_kind fig = chart_type ui ∧ fig_data fig = d ∧
  (∀ c, fig_y fig = Some c → c ∈ get_numeric_columns d) ∧
  (∀ c, fig_color fig = Some c → c ∈ get_categorical_columns d) ∧
  (∀ c, fig_x fig = Some c →
        match chart_type ui with
        | BarChart | LineChart => c ∈ columns d
        | ScatterPlot | Histogram => c ∈ get_numeric_columns d
        | BoxPlot => c ∈ get_categorical_columns d
        end) ∧
  (chart_type ui = Histogram → fig_y fig = None) ∧
  (chart_type ui = BoxPlot → fig_color fig = None) ∧
  (get_numeric_columns d ≠ [] →
   (chart_type ui ≠ Histogram → is_Some (fig_y fig)) ∧
   (chart_type ui ≠ BoxPlot → is_Some (fig_x fig))).
Proof.
  intros fig. unfold fig, chart_of.
  assert (Hcols : get_numeric_columns d ≠ [] → columns d ≠ []).
  { intros Hn Hc. apply Hn.
    assert (Hsub : get_numeric_columns d `sublist_of` columns d)
      by apply compress_sublist.
    rewrite Hc in Hsub. by apply sublist_nil_r in Hsub. }
  assert (Hsel : ∀ (options : list label) i c,
             selectbox options i = Some c → c ∈ options)
    by (intros; by eapply selectbox_elem_of).
  assert (Hopt : ∀ (options : list label) i c,
             selectbox_optional options i = Some c → c ∈ options)
    by (intros; by eapply selectbox_optional_elem_of).
  assert (Hsome : ∀ (options : list label) i,
             options ≠ [] → is_Some (selectbox options i))
    by (intros; by apply selectbox_is_Some).
  destruct (chart_type ui); simpl; split_and!;
    try done; try (intros c Hc; eauto); try discriminate;
    try (intros Hn; split; intros Hk; first [done|eauto]).
Qed.

(** The table of the start page as a bar chart: date against value. *)
Lemma charts_tab_draws_example :
  get_numeric_columns example_table ≠ [] ∧
  @charts_tab sample_env default_widgets example_table initial_world
  = Done () (mkWorld initial_session
               [st_plotly_chart
                  (mkFigure BarChart example_table (Some (LStr "date"))
                     (Some (LStr "value")) None)]).
Proof.
  assert (H : get_numeric_columns example_table ≠ []) by discriminate.
  split; [exact H|].
  exact (@charts_tab_draws sample_env default_widgets example_table
           initial_world H).
Defined.

(** In the table of the start page no label is in both classes. *)
Lemma column_classes_disjoint_example :
  NoDup (columns example_table) ∧
  LStr "value" ∈ get_numeric_columns example_table ∧
  ¬ LStr "value" ∈ get_categorical_columns example_table.
Proof.
  assert (Hnd : NoDup (columns example_table)).
  { apply (bool_decide_unpack _). by vm_compute. }
  assert (Hin : LStr "value" ∈ get_numeric_columns example_table).
  { apply (bool_decide_unpack _). by vm_compute. }
  split; [exact Hnd|]. split; [exact Hin|].
  exact (column_classes_disjoint example_table (LStr "value") Hnd Hin).
Defined.

(** The third and the second column of the table of the start page. *)
Lemma column_classes_complete_example :
  LStr "value" ∈ get_numeric_columns example_table ∧
  LStr "category" ∈ get_categorical_columns example_table.
Proof.
  split.
  - apply (proj1 (column_classes_complete example_table 2 (LStr "value") int64
                    eq_refl eq_refl)).
    apply (bool_decide_unpack _). by vm_compute.
  - exact (proj2 (column_classes_complete example_table 1 (LStr "category")
                    object_ eq_refl eq_refl) eq_refl).
Defined.

(** *** Filtering and the missing-value report *)

Lemma filter_all {A} (P : A → Prop) `{∀ x, Decision (P x)} (l : list A) :
  (∀ x, x ∈ l → P x) → filter P l = l.
Proof.
  induction l as [|x l IH]; intros Hall; [done|].
  rewrite filter_cons, decide_True by (apply Hall; left).
  f_equal. apply IH. intros y Hy. apply Hall. by right.
Qed.

Lemma compress_length_le {A} (mask : list bool) (l : list A) :
  (length (compress mask l) ≤ length l)%nat.
Proof. apply sublist_length, compress_sublist. Qed.

(** The filtered table never has more rows than the current one and is
    rectangular when the current one is; selecting every value of the filter
    column gives the current table back. *)
Theorem filtered_df_bounds (d : DataFrame) (j : nat) (selected_values : list pyval) :
  (len (filtered_df d (column_at d j) selected_values) ≤ len d)%nat ∧
  (wf_DataFrame d → wf_DataFrame (filtered_df d (column_at d j) selected_values)) ∧
  filtered_df d (column_at d j) (unique (column_at d j)) = d.
Proof.
  split_and!.
  - apply compress_length_le.
  - intros [Hdt Hrows]. split; [exact Hdt|].
    unfold filtered_df, getitem_mask; simpl.
    rewrite Forall_forall in Hrows |- *. intros row Hrow. apply Hrows.
    apply elem_of_compress in Hrow as (i & Hi & _).
    by eapply list_elem_of_lookup_2.
  - unfold filtered_df, getitem_mask, column_at. rewrite compress_isin.
    rewrite filter_all; [by destruct d|].
    intros row Hrow. apply first_by_key, list_elem_of_fmap. by exists row.
Qed.

(** With no value selected in the multiselect the export options put
    nothing on the page: no row count and no filtered download. *)
Theorem export_options_without_selection (ui : widgets) (d : DataFrame) (w : world) :
  pick_values ui = [] →
  final (export_options ui d w) = w.
Proof.
  intros Hpicks. unfold export_options. case_bool_decide; [|reflexivity].
  destruct (selectbox _ _) as [filter_col|]; [|reflexivity].
  unfold_script. destruct (filter_column d filter_col) as [[cells uniq]|e];
    simpl; [|reflexivity].
  rewrite Hpicks. reflexivity.
Qed.

(** Every count of the missing-value report is at least 1 and at most the
    number of rows of the table. *)
Theorem missing_counts_bounded (d : DataFrame) (c : label) (n : nat) :
  (c, n) ∈ missing_df d → (1 ≤ n ≤ len d)%nat.
Proof.
  unfold missing_df. rewrite list_elem_of_filter. simpl. intros [Hpos Hin].
  split; [lia|]. apply list_elem_of_lookup in Hin as [j Hj].
  apply isnull_sum_lookup in Hj as [_ ->].
  unfold nulls, column_at, len. etrans; [apply length_filter|].
  by rewrite length_fmap.
Qed.

(** The table of the start page with nothing selected. *)
Lemma export_options_without_selection_example :
  pick_values default_widgets = [] ∧
  final (export_options default_widgets example_table initial_world)
  = initial_world.
Proof.
  split; [reflexivity|].
  exact (export_options_without_selection default_widgets example_table
           initial_world eq_refl).
Defined.

(** A column with two missing cells among three rows. *)
Lemma missing_counts_bounded_example :
  let d := mkDataFrame [LStr "category"; LStr "value"] [object_; float64]
             [[PStr "A"; PNone]; [PStr "B"; PInt 150]; [PStr "A"; PNone]] in
  (LStr "value", 2) ∈ missing_df d ∧ (1 ≤ 2 ≤ len d)%nat.
Proof.
  intros d.
  assert (Hin : (LStr "value", 2) ∈ missing_df d) by left.
  split; [exact Hin|].
  exact (missing_counts_bounded d (LStr "value") 2 Hin).
Defined.

(** *** Where a run can end on an exception *)

Lemma raises_only_never {A} (P : exn → Prop) (m : script A) :
  (∀ w e w', m w ≠ Uncaught e w') → raises_only P m.
Proof. intros Hm w e w' Hw. by destruct (Hm w e w'). Qed.

Lemma raises_only_emit P el : raises_only P (emit el).
Proof. by apply raises_only_never. Qed.

Lemma raises_only_ret {A} P (a : A) : raises_only P (mret a).
Proof. by apply raises_only_never. Qed.

Lemma raises_only_stop {A} P : raises_only P (@st_stop A).
Proof. by apply raises_only_never. Qed.

Lemma raises_only_call {A} (P : exn → Prop) (o : outcome A) :
  (∀ e, o = Raised e → P e) → raises_only P (call o).
Proof.
  intros Ho w e w'. destruct o as [a|e0]; [discriminate|].
  intros [= -> _]. by apply Ho.
Qed.

Lemma raises_only_bind {A B} P (m : script A) (k : A → script B) :
  raises_only P m → (∀ a, raises_only P (k a)) → raises_only P (m ≫= k).
Proof.
  intros Hm Hk w e w'. unfold_script.
  destruct (m w) as [a w1| |e1 w1] eqn:E; [apply Hk|discriminate|].
  intros [= -> _]. by eapply Hm.
Qed.

Lemma raises_only_raise {A} (P : exn → Prop) e : P e → raises_only P (@raise A e).
Proof. intros He w e' w' [= <- _]. exact He. Qed.

Lemma raises_only_when P b m : raises_only P m → raises_only P (when b m).
Proof. intros Hm. destruct b; [done|apply raises_only_ret]. Qed.

(** A [try] whose handler takes every exception and raises none itself. *)
Lemma raises_only_caught {A} P (body : script A) (h : exn → script A) :
  (∀ e, raises_only P (h e)) →
  raises_only P (try_except body (λ e, Some (h e))).
Proof.
  intros Hh w e w'. unfold try_except.
  destruct (body w) as [a w1| |e1 w1]; [discriminate..|]. apply Hh.
Qed.

Create HintDb raises discriminated.
#[global] Hint Resolve raises_only_emit raises_only_ret raises_only_stop
  raises_only_bind raises_only_when raises_only_caught : raises.

Section uncaught.
Context `{env : Env}.

Lemma raises_only_validate_dataframe P d : raises_only P (validate_dataframe d).
Proof.
  unfold validate_dataframe. destruct (match d with None => _ | Some _ => _ end);
    [auto with raises|]. case_bool_decide; auto with raises.
Qed.

Lemma raises_only_data_tab d : raises_only (main_content_raises d) (data_tab d).
Proof.
  unfold data_tab. apply raises_only_bind; [|auto 10 with raises].
  destruct (st_dataframe_raises d) as [msg|] eqn:E; [|auto with raises].
  apply raises_only_raise. left. by exists msg.
Qed.

(** Whatever plotly raises is caught in the charts tab. *)
Lemma raises_only_charts_tab P ui d : raises_only P (charts_tab ui d).
Proof.
  unfold charts_tab. apply raises_only_bind.
  - case_bool_decide; auto with raises.
  - intros _. apply raises_only_caught. auto with raises.
Qed.

Lemma raises_only_statistics_tab P d : raises_only P (statistics_tab d).
Proof.
  unfold statistics_tab, missing_values. apply raises_only_bind.
  - case_bool_decide; auto with raises.
  - intros _. case_bool_decide; auto with raises.
Qed.

Lemma raises_only_footer P : raises_only P footer.
Proof.
  unfold footer. apply raises_only_bind; [by apply raises_only_never|].
  auto with raises.
Qed.

Lemma raises_only_export_tab ui d :
  raises_only (main_content_raises d) (export_tab ui d).
Proof.
  unfold export_tab, export_options.
  apply raises_only_bind; [auto with raises|]. intros _.
  apply raises_only_bind.
  { destruct (to_excel_raises d) as [msg|] eqn:E; [|auto with raises].
    apply raises_only_raise. right. left. by exists msg. }
  intros _. case_bool_decide; [|auto with raises].
  destruct (selectbox _ _) as [filter_col|] eqn:Hbox; [|auto with raises].
  apply selectbox_elem_of in Hbox.
  apply raises_only_bind.
  - apply raises_only_call. intros e He. right. right. by exists filter_col.
  - intros [cells unique_values]. case_bool_decide; auto with raises.
Qed.

Lemma raises_only_dataset_info P : raises_only P dataset_info.
Proof.
  apply raises_only_never. intros w e w'. by rewrite dataset_info_run.
Qed.

Lemma main_content_uncaught ui w e w' :
  main_content ui w = Uncaught e w' →
  ∃ d, df (session w) = Some d ∧ main_content_raises d e.
Proof.
  unfold main_content. unfold mbind at 1, script_bind at 1, bind at 1.
  unfold get_session at 1.
  destruct (df (session w)) as [d|] eqn:Hd; [|discriminate].
  intros Hrun. exists d. split; [done|].
  revert Hrun. generalize w. intros w0 Hrun. revert w0 e w' Hrun.
  match goal with |- ∀ w0 e w', ?m w0 = Uncaught e w' → _ =>
    change (raises_only (main_content_raises d) m)
  end.
  apply raises_only_bind; [apply raises_only_validate_dataframe|]. intros ok.
  apply raises_only_bind; [auto with raises|]. intros _.
  apply raises_only_bind; [apply raises_only_data_tab|]. intros _.
  apply raises_only_bind; [apply raises_only_charts_tab|]. intros _.
  apply raises_only_bind; [apply raises_only_statistics_tab|]. intros _.
  apply raises_only_bind; [apply raises_only_export_tab|]. intros _.
  apply raises_only_footer.
Qed.

End uncaught.

Section uncaught_run.
Context `{env : Env}.

Lemma csv_upload_run_eq ui w :
  csv_upload ui w =
  match uploaded_file ui with
  | Some file =>
      match read_csv file with
      | Returned d =>
          Done () (show (loaded d)
                     (mkWorld (mkSession (Some d) (Some "CSV") (Some (name file)))
                        (page w)))
      | Raised e => Uncaught e w
      end
  | None => Done () w
  end.
Proof.
  unfold csv_upload. destruct (uploaded_file ui) as [file|]; [|reflexivity].
  unfold mbind at 1, script_bind at 1, bind at 1. rewrite load_csv_run.
  destruct (read_csv file); reflexivity.
Qed.

Lemma sidebar_uncaught ui w e w' :
  sidebar ui w = Uncaught e w' →
  (data_source_type ui = CSV_Upload ∧
   ∃ file, uploaded_file ui = Some file ∧ read_csv file = Raised e) ∨
  (data_source_type ui = API ∧ fetch_data ui = true ∧
   fetched (api_endpoint ui) = Raised e ∧ ∃ m, e = Exception m).
Proof.
  unfold sidebar. unfold mbind, script_bind, bind.
  destruct (data_source_type ui).
  - rewrite csv_upload_run_eq.
    destruct (uploaded_file ui) as [file|]; [|by rewrite dataset_info_run].
    destruct (read_csv file) as [d|e0] eqn:E; [by rewrite dataset_info_run|].
    intros [= -> _]. left. split; [done|]. by exists file.
  - rewrite snowflake_run_eq. simpl.
    destruct (execute_query ui); [|by rewrite dataset_info_run].
    destruct (snowpark_to_pandas (query ui)); by rewrite dataset_info_run.
  - rewrite api_run_eq. simpl.
    destruct (fetch_data ui); [|by rewrite dataset_info_run].
    destruct (fetched (api_endpoint ui)) as [d|[m|m|m]] eqn:E;
      try by rewrite dataset_info_run.
    intros [= <- _]. right. split_and!; [done..|]. by exists m.
Qed.

(** A run of the script ends on an uncaught exception only at one of five
    calls that stand outside every [try]: [pd.read_csv] on the uploaded
    file; building the table in the API loader, with an exception that is
    not one of [requests]; [st.dataframe(df)] on the stored table in the
    data tab; writing the Excel workbook of the stored table; and listing
    the values of its filter column in the export options.  A failing
    warehouse, a failing or slow endpoint and a failing chart never end the
    run. *)
Theorem uncaught_exception_sources (ui : widgets) (w w' : world) (e : exn) :
  app ui w = Uncaught e w' →
  (data_source_type ui = CSV_Upload ∧
   ∃ file, uploaded_file ui = Some file ∧ read_csv file = Raised e) ∨
  (data_source_type ui = API ∧ fetch_data ui = true ∧
   fetched (api_endpoint ui) = Raised e ∧ ∃ m, e = Exception m) ∨
  (∃ d, df (session w') = Some d ∧
        ((∃ msg, st_dataframe_raises d = Some msg ∧ e = Exception msg) ∨
         (∃ msg, to_excel_raises d = Some msg ∧ e = Exception msg) ∨
         (∃ filter_col, filter_col ∈ get_categorical_columns d ∧
                        filter_column d filter_col = Raised e))).
Proof.
  unfold app. unfold mbind at 1, script_bind at 1, bind at 1.
  destruct (sidebar ui w) as [[] w1| |e1 w1] eqn:Hside; [|discriminate|].
  - intros Hmain. right. right.
    pose proof (keeps_main_content ui w1) as Hkeep. rewrite Hmain in Hkeep.
    simpl in Hkeep. rewrite Hkeep.
    by apply (main_content_uncaught ui w1 e w').
  - intros [= -> ->].
    destruct (sidebar_uncaught ui w e w' Hside) as [?|?]; [by left|right; by left].
Qed.

End uncaught_run.

(** An empty upload: the run ends on the parser's exception. *)
Lemma uncaught_exception_sources_example :
  let upload := mkUploadedFile "empty.csv" "" in
  let e := Exception "No columns to parse from file" in
  @app sample_env (csv_run upload) initial_world = Uncaught e initial_world ∧
  ((data_source_type (csv_run upload) = CSV_Upload ∧
    ∃ file, uploaded_file (csv_run upload) = Some file ∧
            @read_csv sample_env file = Raised e) ∨
   (data_source_type (csv_run upload) = API ∧ fetch_data (csv_run upload) = true ∧
    @fetched sample_env (api_endpoint (csv_run upload)) = Raised e ∧
    ∃ m, e = Exception m) ∨
   (∃ d, df (session initial_world) = Some d ∧
         ((∃ msg, @st_dataframe_raises sample_env d = Some msg ∧ e = Exception msg) ∨
          (∃ msg, @to_excel_raises sample_env d = Some msg ∧ e = Exception msg) ∨
          (∃ filter_col, filter_col ∈ get_categorical_columns d ∧
                         filter_column d filter_col = Raised e)))).
Proof.
  intros upload e. split; [reflexivity|].
  exact (@uncaught_exception_sources sample_env (csv_run upload) initial_world
           initial_world e eq_refl).
Defined.

(** *** What the statistics and export tabs always show *)

Section tabs.
Context `{env : Env}.

(** The statistics tab always completes and leaves the session alone.  It
    shows the descriptive statistics exactly when the table has a numeric
    column, the correlation heat map exactly when it has at least two, and
    the note that no numeric column is available exactly when it has none;
    the last thing it shows is the missing-value report or the message that
    nothing is missing. *)
Theorem statistics_tab_contents (d : DataFrame) (w : world) :
  let numeric_cols := get_numeric_columns d in
  ∃ shown : list element,
    statistics_tab d w = Done () (mkWorld (session w) (page w ++ shown)%list) ∧
    (st_dataframe (describe d numeric_cols) ∈ shown ↔ numeric_cols ≠ []) ∧
    (st_corr_heatmap d numeric_cols ∈ shown ↔ (2 ≤ length numeric_cols)%nat) ∧
    (st_info "No numeric columns available for statistical analysis" ∈ shown
     ↔ numeric_cols = []) ∧
    (last shown = Some (st_dataframe (missing_report (missing_df d))) ∨
     last shown = Some (st_success ":material/check_circle: No missing values found!")).
Proof.
  intros numeric_cols. unfold statistics_tab, missing_values.
  fold numeric_cols. unfold_script.
  set (report := st_dataframe (missing_report (missing_df d))).
  set (nothing := st_success ":material/check_circle: No missing values found!").
  set (final_el := if bool_decide (0 < length (missing_df d)) then report else nothing).
  assert (Hlast : ∀ l : list element,
    last (l ++ [final_el]) = Some report ∨ last (l ++ [final_el]) = Some nothing).
  { intros l. rewrite last_snoc. unfold final_el. case_bool_decide; eauto. }
  assert (Hfin1 : st_dataframe (describe d numeric_cols) ≠ final_el)
    by (unfold final_el; case_bool_decide; discriminate).
  assert (Hfin2 : st_corr_heatmap d numeric_cols ≠ final_el)
    by (unfold final_el; case_bool_decide; discriminate).
  assert (Hfin3 : st_info "No numeric columns available for statistical analysis"
                  ≠ final_el)
    by (unfold final_el; case_bool_decide; discriminate).
  destruct numeric_cols as [|c1 [|c2 cols]] eqn:Hcols; simpl.
  - exists [st_info "No numeric columns available for statistical analysis"; final_el].
    split.
    { unfold final_el. case_bool_decide; simpl; by rewrite <- app_assoc. }
    split_and!.
    + split; [|done]. intros Hin. exfalso.
      apply elem_of_cons in Hin as [?|Hin]; [discriminate|]. apply list_elem_of_singleton in Hin;
      first [by apply Hfin1|by apply Hfin2|by apply Hfin3].
    + split; [|lia]. intros Hin. exfalso.
      apply elem_of_cons in Hin as [?|Hin]; [discriminate|]. apply list_elem_of_singleton in Hin;
      first [by apply Hfin1|by apply Hfin2|by apply Hfin3].
    + split; [done|]. intros _. left.
    + apply (Hlast [_]).
  - exists [st_dataframe (describe d [c1]); final_el].
    split.
    { unfold final_el. case_bool_decide; simpl; by rewrite <- app_assoc. }
    split_and!.
    + split; [done|]. intros _. left.
    + split; [|lia]. intros Hin. exfalso.
      apply elem_of_cons in Hin as [?|Hin]; [discriminate|]. apply list_elem_of_singleton in Hin;
      first [by apply Hfin1|by apply Hfin2|by apply Hfin3].
    + split; [|done]. intros Hin. exfalso.
      apply elem_of_cons in Hin as [?|Hin]; [discriminate|]. apply list_elem_of_singleton in Hin;
      first [by apply Hfin1|by apply Hfin2|by apply Hfin3].
    + apply (Hlast [_]).
  - exists [st_dataframe (describe d (c1 :: c2 :: cols));
            st_corr_heatmap d (c1 :: c2 :: cols); final_el].
    split.
    { unfold final_el. case_bool_decide; simpl; by rewrite <- !app_assoc. }
    split_and!.
    + split; [done|]. intros _. left.
    + split; [intros _; lia|]. intros _. right. left.
    + split; [|done]. intros Hin. exfalso.
      apply elem_of_cons in Hin as [?|Hin]; [discriminate|].
      apply elem_of_cons in Hin as [?|Hin]; [discriminate|]. apply list_elem_of_singleton in Hin;
      first [by apply Hfin1|by apply Hfin2|by apply Hfin3].
    + apply (Hlast [_; _]).
Qed.

(** The export tab always offers the CSV download of the whole current
    table first, under a name carrying the timestamp.  When writing the
    workbook raises, the run ends there on that exception and nothing more
    is offered.  Otherwise the Excel download of the whole table follows,
    whatever the filter options then do, and the workbook has its statistics
    sheet exactly when the table has a numeric column. *)
Theorem export_tab_offers_whole_table (ui : widgets) (d : DataFrame) (w : world) :
  let csv := st_download_button (to_csv d)
               ("dashboard_export_" +:+ now ui +:+ ".csv") in
  match to_excel_raises d with
  | Some msg => export_tab ui d w = Uncaught (Exception msg) (show csv w)
  | None =>
      ∃ (statistics : option (list label)) (rest : list element),
        page (final (export_tab ui d w))
        = (page w ++
           [csv;
            st_download_button (to_excel d statistics)
              ("dashboard_export_" +:+ now ui +:+ ".xlsx")] ++ rest)%list ∧
        (get_numeric_columns d = [] → statistics = None) ∧
        (get_numeric_columns d ≠ [] → statistics = Some (get_numeric_columns d))
  end.
Proof.
  intros csv.
  assert (Hopts : ∀ w0, ∃ rest, page (final (export_options ui d w0))
                                = (page w0 ++ rest)%list).
  { intros w0. unfold export_options.
    case_bool_decide; [|exists []; simpl; by rewrite app_nil_r].
    destruct (selectbox _ _) as [filter_col|];
      [|exists []; simpl; by rewrite app_nil_r].
    unfold_script.
    destruct (filter_column d filter_col) as [[cells uniq]|e]; simpl;
      [|exists []; simpl; by rewrite app_nil_r].
    case_bool_decide; simpl;
      [|exists []; simpl; by rewrite app_nil_r].
    eexists [_; _]. by rewrite <- app_assoc. }
  unfold export_tab.
  destruct (to_excel_raises d) as [msg|]; [reflexivity|].
  set (statistics := if bool_decide (0 < length (get_numeric_columns d))
                     then Some (get_numeric_columns d) else None).
  unfold mbind, script_bind, bind, emit.
  match goal with |- context [export_options ui d ?w0] =>
    destruct (Hopts w0) as [rest Hrest] end.
  exists statistics, rest. split_and!.
  - destruct (export_options ui d _) as [[] w1|w1|e w1]; simpl in *;
      by rewrite Hrest, <- !app_assoc.
  - intros Hn. unfold statistics. by rewrite Hn.
  - intros Hn. unfold statistics. rewrite bool_decide_eq_true_2; [done|].
    destruct (get_numeric_columns d); [done|simpl; lia].
Qed.

End tabs.

(** Category A selected in the table of the start page: two rows are
    counted and offered. *)
Lemma export_options_run_example :
  let ui := {| data_source_type := CSV_Upload; uploaded_file := None;
               query := ""; execute_query := false;
               api_endpoint := ""; fetch_data := false;
               chart_type := BarChart;
               pick_x := 0; pick_y := 0; pick_color := 0;
               pick_filter := 1; pick_values := [0];
               now := "20240101_120000" |} in
  let cells := column_at example_table 1 in
  let filtered := filtered_df example_table cells [PStr "A"] in
  selectbox (get_categorical_columns example_table) (pick_filter ui)
  = Some (LStr "category") ∧
  get_loc example_table (LStr "category") = [1] ∧
  forallb hashable cells = true ∧
  multiselect (unique cells) (pick_values ui) = [PStr "A"] ∧
  len filtered = 2 ∧
  export_options ui example_table initial_world
  = Done () (show (st_download_button (to_csv filtered)
                     ("dashboard_filtered_" +:+ now ui +:+ ".csv"))
               (show (st_metric "Filtered Rows" (len filtered)) initial_world)).
Proof.
  intros ui cells filtered. split_and!; [reflexivity..|].
  apply (export_options_run ui example_table initial_world (LStr "category") 1);
    [reflexivity..|].
  discriminate.
Defined.

(** Category A selected in the table of the start page: the session is as
    before, and the table counted and offered is the one of the first and
    third row. *)
Lemma export_leaves_table_category_A :
  let ui := {| data_source_type := CSV_Upload; uploaded_file := None;
               query := ""; execute_query := false;
               api_endpoint := ""; fetch_data := false;
               chart_type := BarChart;
               pick_x := 0; pick_y := 0; pick_color := 0;
               pick_filter := 1; pick_values := [0];
               now := "20240101_120000" |} in
  let w := mkWorld (mkSession (Some example_table) (Some "CSV")
                      (Some "sales.csv")) [] in
  let filtered :=
    mkDataFrame (columns example_table) (dtypes example_table)
      [[PStr "2024-01-01"; PStr "A"; PInt 100; PInt 5];
       [PStr "2024-01-03"; PStr "A"; PInt 120; PInt 6]] in
  session (final (@export_tab sample_env ui example_table w)) = session w ∧
  export_options ui example_table w
  = Done () (mkWorld (session w)
               [st_metric "Filtered Rows" 2;
                st_download_button (to_csv filtered)
                  "dashboard_filtered_20240101_120000.csv"]).
Proof.
  intros ui w filtered.
  destruct (@export_leaves_table sample_env ui example_table w)
    as (Hsession & _ & _ & Hoptions).
  split; [exact Hsession|].
  rewrite (Hoptions (LStr "category") 1); [reflexivity..|discriminate].
Defined.
